(** * Dialog engine of the social-good assistant: model and verification

    A shallow embedding of the newest generation of the dialog engine
    (the module that starts with the "Design goals" comment): the text
    normaliser, the safety and domain classifiers, the scheme retriever and
    the dialog state machine ([handleUserText], [handleAction]).

    Conventions of the embedding
    - a JavaScript string is the list of its code points ([jsstring]);
      literals are written as Rocq strings and decoded from UTF-8 by [u];
    - numbers that the engine only uses as small integers (scores, offsets,
      page sizes) are in [Z];
    - [undefined] / [null] are [None]; a thrown [TypeError] is a [None]
      result of the two public entry points;
    - the knowledge base [kb] (an imported JSON file) and the Unicode tables
      of the host ([toLowerCase], the properties L and N) are parameters. *)

From Stdlib Require Import List ZArith NArith Lia Bool String Ascii.
From Stdlib Require Import Permutation Sorted DecimalString.
Import ListNotations.
Open Scope string_scope.
Open Scope list_scope.

(* ================================================================== *)
(** ** Strings *)

Definition codepoint := N.
Definition jsstring := list codepoint.

Fixpoint utf8_bytes (s : string) : list N :=
  match s with
  | EmptyString => []
  | String c r => N_of_ascii c :: utf8_bytes r
  end.

(** UTF-8 decoding of a literal (well-formed input expected; a truncated
    sequence ends the result). *)
Fixpoint utf8_decode (bs : list N) : jsstring :=
  match bs with
  | [] => []
  | b :: r =>
      if (b <? 128)%N then b :: utf8_decode r
      else if (b <? 224)%N then
        match r with
        | b1 :: r' => ((b - 192) * 64 + (b1 - 128))%N :: utf8_decode r'
        | _ => []
        end
      else if (b <? 240)%N then
        match r with
        | b1 :: b2 :: r' =>
            ((b - 224) * 4096 + (b1 - 128) * 64 + (b2 - 128))%N :: utf8_decode r'
        | _ => []
        end
      else
        match r with
        | b1 :: b2 :: b3 :: r' =>
            ((b - 240) * 262144 + (b1 - 128) * 4096 + (b2 - 128) * 64 + (b3 - 128))%N
              :: utf8_decode r'
        | _ => []
        end
  end.

(** [u "text"] is the JavaScript string literal ["text"]. *)
Definition u (s : string) : jsstring := utf8_decode (utf8_bytes s).

(** The two-character escape [\n] of the source's literals. *)
Definition nl : jsstring := [10%N].

(** [a === b] on strings. *)
Fixpoint str_eqb (a b : jsstring) : bool :=
  match a, b with
  | [], [] => true
  | x :: a', y :: b' => (x =? y)%N && str_eqb a' b'
  | _, _ => false
  end.

(** Truthiness of a string value: non-empty. *)
Definition truthy (s : jsstring) : bool :=
  match s with [] => false | _ => true end.

(** Truthiness of a possibly undefined string value. *)
Definition otruthy (o : option jsstring) : bool :=
  match o with Some s => truthy s | None => false end.

(** [a || b] on possibly undefined strings. *)
Definition or_else (a b : option jsstring) : option jsstring :=
  if otruthy a then a else b.

(** [a || ""] . *)
Definition or_empty (a : option jsstring) : jsstring :=
  match a with Some s => s | None => [] end.

(** How a template literal prints a possibly undefined string. *)
Definition show (o : option jsstring) : jsstring :=
  match o with Some s => s | None => u "undefined" end.

Fixpoint starts_with (needle hay : jsstring) : bool :=
  match needle, hay with
  | [], _ => true
  | x :: n', y :: h' => (x =? y)%N && starts_with n' h'
  | _ :: _, [] => false
  end.

(** [hay.includes(needle)]. *)
Fixpoint includes (hay needle : jsstring) : bool :=
  starts_with needle hay ||
  match hay with
  | [] => false
  | _ :: h' => includes h' needle
  end.

(** ECMAScript [WhiteSpace] and [LineTerminator]: the set of [\s] and of
    [String.prototype.trim]. *)
Definition isWhiteSpace (c : codepoint) : bool :=
  ((9 <=? c) && (c <=? 13) || (c =? 32) || (c =? 160) || (c =? 5760)
   || (8192 <=? c) && (c <=? 8202) || (c =? 8232) || (c =? 8233)
   || (c =? 8239) || (c =? 8287) || (c =? 12288) || (c =? 65279))%N.

Fixpoint trimStart (s : jsstring) : jsstring :=
  match s with
  | c :: s' => if isWhiteSpace c then trimStart s' else s
  | [] => []
  end.

Definition trim (s : jsstring) : jsstring :=
  rev (trimStart (rev (trimStart s))).

(** [parts.join(sep)]. *)
Fixpoint join (sep : jsstring) (parts : list jsstring) : jsstring :=
  match parts with
  | [] => []
  | [p] => p
  | p :: rest => p ++ sep ++ join sep rest
  end.

(** [`${idx}`] for an array index. *)
Definition index_string (idx : nat) : jsstring :=
  u (NilZero.string_of_uint (Nat.to_uint idx)).

(** The host's Unicode tables: [String.prototype.toLowerCase] and the
    general categories L (letter) and N (number) of the [u]-flagged
    character class of [tokenize]. *)
Class Unicode := {
  toLowerCase : jsstring -> jsstring;
  isLetter : codepoint -> bool;
  isNumber : codepoint -> bool
}.

(* ================================================================== *)
(** ** Regular expressions

    The fragment the engine's pattern tables use: literal characters,
    sequence, ordered alternation, [x?] and [\b], with or without the [i]
    flag.  Matching is ECMAScript's backtracking matcher in
    continuation-passing style. *)

Inductive regex : Type :=
| Eps
| Chr (c : codepoint)
| Seq (r1 r2 : regex)
| Alt (r1 r2 : regex)
| Opt (r : regex)
| WordB.

Record RegExp := { body : regex; ignoreCase : bool }.

(** [\w] without the [u] flag. *)
Definition wordChar (c : codepoint) : bool :=
  ((48 <=? c) && (c <=? 57) || (65 <=? c) && (c <=? 90) || (c =? 95)
   || (97 <=? c) && (c <=? 122))%N.

Definition wordAt (o : option codepoint) : bool :=
  match o with Some c => wordChar c | None => false end.

(** Canonicalisation under the [i] flag (no [u] flag).  Every pattern
    character of this program is Basic Latin or an uncased ideograph; for
    those ECMAScript's Canonicalize identifies exactly a Basic Latin letter
    with its other case (a character above 127 never canonicalises to one
    below 128). *)
Definition canonicalize (c : codepoint) : codepoint :=
  if ((97 <=? c) && (c <=? 122))%N then (c - 32)%N else c.

Definition char_eqb (ci : bool) (p c : codepoint) : bool :=
  if ci then (canonicalize p =? canonicalize c)%N else (p =? c)%N.

(** [rmatch ci r prev s k]: match [r] at the current position, where [prev]
    is the character before it and [s] the input from it on; [k] is the
    continuation, called with the position after the match. *)
Fixpoint rmatch {A : Type} (ci : bool) (r : regex) (prev : option codepoint)
    (s : jsstring) (k : option codepoint -> jsstring -> option A) : option A :=
  match r with
  | Eps => k prev s
  | Chr p =>
      match s with
      | c :: s' => if char_eqb ci p c then k (Some c) s' else None
      | [] => None
      end
  | Seq r1 r2 => rmatch ci r1 prev s (fun p t => rmatch ci r2 p t k)
  | Alt r1 r2 =>
      match rmatch ci r1 prev s k with
      | Some v => Some v
      | None => rmatch ci r2 prev s k
      end
  | Opt r1 =>
      match rmatch ci r1 prev s k with
      | Some v => Some v
      | None => k prev s
      end
  | WordB => if xorb (wordAt prev) (wordAt (hd_error s)) then k prev s else None
  end.

(** The input after the match of [re] at the current position, if any. *)
Definition match_here (re : RegExp) (prev : option codepoint) (s : jsstring)
  : option jsstring :=
  rmatch (ignoreCase re) (body re) prev s (fun _ rest => Some rest).

(** Leftmost match from the current position on: the text before the match
    and the text after it. *)
Fixpoint exec_from (re : RegExp) (prev : option codepoint) (s : jsstring)
  : option (jsstring * jsstring) :=
  match match_here re prev s with
  | Some rest => Some ([], rest)
  | None =>
      match s with
      | [] => None
      | c :: s' =>
          match exec_from re (Some c) s' with
          | Some (before, rest) => Some (c :: before, rest)
          | None => None
          end
      end
  end.

(** [re.test(s)] for a regular expression without the [g] or [y] flag. *)
Definition test (re : RegExp) (s : jsstring) : bool :=
  match exec_from re None s with Some _ => true | None => false end.

(** [s.replace(re, norm)] for such a regular expression and a replacement
    without [$] patterns: the leftmost match is replaced, once. *)
Definition replace (s : jsstring) (re : RegExp) (norm : jsstring) : jsstring :=
  match exec_from re None s with
  | Some (before, rest) => before ++ norm ++ rest
  | None => s
  end.

(** Pattern source to [regex]: a literal in which [x?] makes [x] optional. *)
Fixpoint pat (p : jsstring) : regex :=
  match p with
  | [] => Eps
  | c :: p' =>
      match p' with
      | 63%N :: p'' => Seq (Opt (Chr c)) (pat p'')
      | _ => Seq (Chr c) (pat p')
      end
  end.

(** [(a|b|...)]. *)
Definition oneOf (ps : list string) : regex :=
  match map (fun p => pat (u p)) ps with
  | [] => Eps
  | r :: rs => fold_left Alt rs r
  end.

(** [/\b(a|b|...)\b/i]. *)
Definition words_i (ps : list string) : RegExp :=
  {| body := Seq WordB (Seq (oneOf ps) WordB); ignoreCase := true |}.

(** [/\b(a|b|...)\b/] (also written [/\ba\b/]). *)
Definition words (ps : list string) : RegExp :=
  {| body := Seq WordB (Seq (oneOf ps) WordB); ignoreCase := false |}.

(** [/(a|b|...)/] (also written [/a|b|.../]). *)
Definition anyOf (ps : list string) : RegExp :=
  {| body := oneOf ps; ignoreCase := false |}.

(** [/(a|b|...)/i]. *)
Definition anyOf_i (ps : list string) : RegExp :=
  {| body := oneOf ps; ignoreCase := true |}.


(* ================================================================== *)
(** ** Data model *)

(** A knowledge-base scheme.  A missing list field is the empty list, a
    missing [category] the empty string (the engine reads both that way). *)
Record Scheme := {
  scheme_id : jsstring;
  name_en : option jsstring;
  name_zh : option jsstring;
  summary_en : option jsstring;
  summary_zh : option jsstring;
  keywords_en : list jsstring;
  keywords_zh : list jsstring;
  eligibility_en : list jsstring;
  eligibility_zh : list jsstring;
  how_to_apply_en : list jsstring;
  how_to_apply_zh : list jsstring;
  category : jsstring;
  official_links : list jsstring
}.

Record Contacts := { hotline : option jsstring; email : option jsstring }.

Record EntryPoint := {
  ep_id : jsstring;
  ep_name_en : option jsstring;
  ep_name_zh : option jsstring;
  ep_links : list jsstring;
  ep_contacts : option Contacts
}.

(** The imported knowledge base ([sg_services_kb.json]). *)
Record KnowledgeBase := {
  schemes : list Scheme;
  entry_points : list EntryPoint
}.

Record Domain := { dom_id : jsstring; cat : jsstring; en : jsstring; zh : jsstring }.

Inductive Step := choose_domain | choose_focus | refine_and_show.

Record DialogState := {
  lang : jsstring;
  step : Step;
  domainId : option jsstring;
  focus : jsstring;
  lastQuery : jsstring;
  offset : Z;
  pageSize : Z;
  ended : bool
}.

(** Field updates of a state copy [{ ...state, field: v }]. *)
Definition set_step (v : Step) (st : DialogState) : DialogState :=
  {| lang := lang st; step := v; domainId := domainId st; focus := focus st;
     lastQuery := lastQuery st; offset := offset st; pageSize := pageSize st;
     ended := ended st |}.

Definition set_domainId (v : option jsstring) (st : DialogState) : DialogState :=
  {| lang := lang st; step := step st; domainId := v; focus := focus st;
     lastQuery := lastQuery st; offset := offset st; pageSize := pageSize st;
     ended := ended st |}.

Definition set_focus (v : jsstring) (st : DialogState) : DialogState :=
  {| lang := lang st; step := step st; domainId := domainId st; focus := v;
     lastQuery := lastQuery st; offset := offset st; pageSize := pageSize st;
     ended := ended st |}.

Definition set_lastQuery (v : jsstring) (st : DialogState) : DialogState :=
  {| lang := lang st; step := step st; domainId := domainId st; focus := focus st;
     lastQuery := v; offset := offset st; pageSize := pageSize st;
     ended := ended st |}.

Definition set_offset (v : Z) (st : DialogState) : DialogState :=
  {| lang := lang st; step := step st; domainId := domainId st; focus := focus st;
     lastQuery := lastQuery st; offset := v; pageSize := pageSize st;
     ended := ended st |}.

Definition set_ended (v : bool) (st : DialogState) : DialogState :=
  {| lang := lang st; step := step st; domainId := domainId st; focus := focus st;
     lastQuery := lastQuery st; offset := offset st; pageSize := pageSize st;
     ended := v |}.

(** An action object as the entry point receives it: a string tag and the
    payload fields the handlers read. *)
Record Action := {
  action_type : option jsstring;
  action_domainId : option jsstring;
  action_focus : option jsstring;
  action_text : option jsstring
}.

Record Card := {
  card_id : jsstring;
  title : option jsstring;
  summary : option jsstring;
  eligibility : list jsstring;
  steps : list jsstring;
  links : list jsstring;
  contacts : option Contacts;
  card_focus : jsstring
}.

Record QuickReply := {
  qr_id : jsstring;
  label : jsstring;
  sendText : jsstring;
  action : Action
}.

(** An argument of [makeQuickReplies]: [id] and [sendText] are optional. *)
Record Item := {
  it_id : option jsstring;
  it_label : jsstring;
  it_sendText : option jsstring;
  it_action : Action
}.

Record Message := {
  role : jsstring;
  text : jsstring;
  cards : list Card;
  quickReplies : list QuickReply
}.

(** What the two entry points return: [{ state, message }], where
    [message] may be [null]. *)
Record Result := { state : DialogState; message : option Message }.

(** One entry of [retrieveAllSchemes]'s ranked list: [{ s, score }]. *)
Record Scored := { sch : Scheme; score : Z }.

Record Retrieval := {
  matched : list Scored;
  lowConfidence : bool;
  bestScore : Z
}.

(* ================================================================== *)
(** ** Static tables *)

Definition DEFAULT_PAGE_SIZE : Z := 3.
Definition MAX_MATCHES_CAP : nat := 50.

Definition STOPWORDS : list jsstring := map u
  ["the";"a";"an";"to";"for";"and";"or";"of";"in";"on";"at";"is";"are";"am";
   "i";"me";"my";"we";"our";"you";"your";"they";"them";"this";"that";
   "need";"help";"please";"can";"could";"want";"looking";"apply";"get";
   "with";"from";"about";"into";"as";"it";"im";"i'm";
   "我";"我们";"你";"你们";"需要";"想";"申请";"帮助";"怎么";"如何";"有没有";
   "可以";"吗";"要";"找";"想要";"一下";"现在";"这个";"那个"].

Definition STOPWORDS_has (w : jsstring) : bool :=
  existsb (str_eqb w) STOPWORDS.

Record Synonym := { re : RegExp; norm : jsstring }.

Definition SYNONYMS : list Synonym :=
  [ {| re := words_i ["financial aid";"cash help";"money help";"no money";"broke";
                      "bills? help";"overdue bills?";"arrears";"low income";"debt"];
       norm := u "financial aid" |};
    {| re := words_i ["housing grant";"rental support";"rent help";"no place to stay";
                      "eviction";"evicted";"homeless";"shelter";"sleeping outside"];
       norm := u "housing" |};
    {| re := words_i ["health";"healthcare";"medical";"sick";"ill";"clinic";"doctor";
                      "gp";"polyclinic";"medicine";"medication";"dental"];
       norm := u "medical" |};
    {| re := words_i ["hospital bill";"ward";"a&e";"emergency room";
                      "cannot afford hospital";"cant afford hospital"];
       norm := u "hospital bill" |};
    {| re := words_i ["medical subsidy";"clinic subsidy";"medifund";"chas";"medisave";
                      "medishield"];
       norm := u "medical" |};
    {| re := words_i ["senior support";"elderly";"caregiver";"home care"];
       norm := u "seniors" |};
    {| re := words_i ["disability";"wheelchair";"assistive";"pwd";"sgenable"];
       norm := u "disability" |};
    {| re := words_i ["school fees";"childcare";"preschool";"student care";"kifas";"ecda"];
       norm := u "education" |};
    {| re := words_i ["job";"employment";"unemployed";"training";"upskill";"skillsfuture"];
       norm := u "employment" |};
    {| re := words_i ["mental health";"anxiety";"depression";"counselling";"therapy";
                      "stressed";"overwhelmed";"panic";"suicid"];
       norm := u "mental health" |};
    {| re := words_i ["legal aid";"lawyer";"divorce";"court";"legal"];
       norm := u "legal" |};
    {| re := anyOf ["经济援助";"现金补助";"没钱";"我很穷";"生活费";"账单";"欠费";"补贴";"发放"];
       norm := u "financial aid" |};
    {| re := anyOf ["住房";"租房";"租金补贴";"被驱逐";"驱逐通知";"没地方住";"无家可归";
                    "收容";"露宿"];
       norm := u "housing" |};
    {| re := anyOf_i ["健康";"生病";"看病";"医疗";"医药费";"药";"药费";"太贵";"诊所";"医生";
                      "医院账单";"住院费";"急诊";"A&E";"社工"];
       norm := u "medical" |};
    {| re := anyOf ["长者";"老人";"照护";"护理";"照护者";"看护"];
       norm := u "seniors" |};
    {| re := anyOf ["残障";"残疾";"轮椅";"辅助器材";"助听器"];
       norm := u "disability" |};
    {| re := anyOf ["学费";"幼儿园";"托儿";"学生托管";"课后照护"];
       norm := u "education" |};
    {| re := anyOf ["工作";"就业";"失业";"培训";"技能";"课程补贴"];
       norm := u "employment" |};
    {| re := anyOf ["心理";"抑郁";"焦虑";"压力很大";"崩溃";"想不开";"自杀";"辅导"];
       norm := u "mental health" |};
    {| re := anyOf ["法律援助";"离婚";"律师";"法庭";"法律"];
       norm := u "legal" |} ].

Definition SENSITIVE_TRIGGERS : list RegExp :=
  [ words_i ["suicide";"kill myself";"self-harm";"end my life"];
    anyOf ["自杀";"轻生";"想不开";"伤害自己";"结束生命"] ].

Definition URGENT_TRIGGERS : list RegExp :=
  [ words_i ["no place to stay today";"no place to stay tonight";"sleeping outside";
             "evicted today";"urgent";"emergency";"tonight"];
    anyOf ["今天没地方住";"今晚没地方睡";"紧急";"急需";"被赶出来";"露宿";"马上需要"] ].

Definition mkDomain (i c e z : string) : Domain :=
  {| dom_id := u i; cat := u c; en := u e; zh := u z |}.

Definition DOMAIN : list Domain :=
  [ mkDomain "financial"  "financial_assistance"  "Financial"     "经济援助";
    mkDomain "housing"    "housing_assistance"    "Housing"       "住房";
    mkDomain "healthcare" "healthcare_support"    "Healthcare"    "医疗";
    mkDomain "seniors"    "elderly_support"       "Seniors"       "长者支持";
    mkDomain "disability" "disability_support"    "Disability"    "残障支持";
    mkDomain "legal"      "legal_support"         "Legal"         "法律援助";
    mkDomain "mental"     "mental_health_support" "Mental health" "心理支持" ].

Definition DOMAIN_HINTS : list (jsstring * list jsstring) :=
  map (fun p => (u (fst p), map u (snd p)))
  [ ("financial", ["financial aid";"comcare";"gstv";"assurance";"cdc";"workfare";"wis";
                   "cash";"bills"]);
    ("housing", ["housing";"rent";"rental";"hdb";"irh";"pphs";"eviction";"homeless";
                 "shelter"]);
    ("healthcare", ["medical";"clinic";"doctor";"chas";"medifund";"medisave";"medishield";
                    "hospital bill";"health"]);
    ("seniors", ["seniors";"elderly";"caregiver";"aic";"silver support"]);
    ("disability", ["disability";"pwd";"sgenable";"assistive";"atf";"eec"]);
    ("legal", ["legal";"lab";"lawyer";"divorce";"court";"legal aid"]);
    ("mental", ["mental health";"mindline";"1771";"anxiety";"depression";"stressed";
                "overwhelmed"]) ].

(** [DOMAIN_HINTS[id] || []]. *)
Definition hints_of (i : jsstring) : list jsstring :=
  match find (fun p => str_eqb (fst p) i) DOMAIN_HINTS with
  | Some p => snd p
  | None => []
  end.

Definition is_zh (l : jsstring) : bool := str_eqb l (u "zh").

Definition langPick (l : jsstring) (e z : option jsstring) : option jsstring :=
  if is_zh l then or_else z e else or_else e z.

(** [DOMAIN.find(d => d.id === id) || null]. *)
Definition domainById (i : option jsstring) : option Domain :=
  match i with
  | Some i' => find (fun d => str_eqb (dom_id d) i') DOMAIN
  | None => None
  end.

Definition containsAny (raw : jsstring) (regexList : list RegExp) : bool :=
  existsb (fun r => test r raw) regexList.

(** Tables restricted to Basic Latin and the CJK Unified Ideographs, the two
    scripts of the engine's own pattern tables; they serve to run the engine
    on concrete inputs written in these scripts. *)
Definition basicUnicode : Unicode := {|
  toLowerCase := map (fun c => if ((65 <=? c) && (c <=? 90))%N then (c + 32)%N else c);
  isLetter := fun c =>
    ((65 <=? c) && (c <=? 90) || (97 <=? c) && (c <=? 122)
     || (13312 <=? c) && (c <=? 19903) || (19968 <=? c) && (c <=? 40959))%N;
  isNumber := fun c => ((48 <=? c) && (c <=? 57))%N
|}.

(** A small knowledge base in the shape of [sg_services_kb.json], to run
    the engine on. *)
Definition mkScheme (i n summ : string) (kw elig how : list string) (c : string) : Scheme :=
  {| scheme_id := u i; name_en := Some (u n); name_zh := None;
     summary_en := Some (u summ); summary_zh := None;
     keywords_en := map u kw; keywords_zh := [];
     eligibility_en := map u elig; eligibility_zh := [];
     how_to_apply_en := map u how; how_to_apply_zh := [];
     category := u c; official_links := [] |}.

Definition sampleKb : KnowledgeBase :=
  {| schemes :=
       [ mkScheme "comcare" "ComCare Assistance" "Cash support for daily living"
           ["comcare"; "cash"] ["Low household income"] ["Visit a Social Service Office"]
           "financial_assistance";
         mkScheme "chas" "CHAS" "Subsidies at clinic and dental visits"
           ["chas"; "clinic"] ["Singapore citizens"] ["Apply online"]
           "healthcare_support";
         mkScheme "medifund" "MediFund" "Safety net for a hospital bill"
           ["medifund"; "hospital bill"] ["Unable to pay after subsidies"]
           ["Ask the medical social worker"]
           "healthcare_support";
         mkScheme "medishield" "MediShield Life" "Insurance for a large hospital bill"
           ["medishield"; "hospital bill"] ["All citizens"] ["Automatic cover"]
           "healthcare_support";
         mkScheme "careshield" "CareShield Life" "Long term care payouts"
           ["careshield"; "hospital bill"] ["Born 1980 or later"] ["Automatic cover"]
           "healthcare_support";
         mkScheme "rental" "Public Rental Scheme" "Flats at low rent"
           ["hdb"; "rent"] ["No other housing option"] ["Apply at HDB"]
           "housing_assistance" ];
     entry_points :=
       [ {| ep_id := u "sso"; ep_name_en := Some (u "Social Service Office");
            ep_name_zh := None; ep_links := [];
            ep_contacts := Some {| hotline := Some (u "1800-222-0000"); email := None |} |} ] |}.

(** Sample states: a conversation in its results step after one
    MORE_RESULTS, the same conversation ended, and one whose query matches
    nothing in [sampleKb]. *)
Definition midState : DialogState :=
  {| lang := u "en"; step := refine_and_show; domainId := Some (u "healthcare");
     focus := u "eligibility"; lastQuery := u "hospital bill"; offset := 3;
     pageSize := 3; ended := false |}.

Definition endedState : DialogState := set_ended true midState.

(** The third scheme of [sampleKb]. *)
Definition medifund : Scheme :=
  mkScheme "medifund" "MediFund" "Safety net for a hospital bill"
    ["medifund"; "hospital bill"] ["Unable to pay after subsidies"]
    ["Ask the medical social worker"]
    "healthcare_support".

Definition noMatchState : DialogState :=
  {| lang := u "en"; step := refine_and_show; domainId := None;
     focus := u "overview"; lastQuery := u "zzz"; offset := 0;
     pageSize := 3; ended := false |}.

(** A knowledge base of ninety schemes (fifteen copies of [sampleKb]), to run
    the retrieval past its cap. *)
Definition crowdedKb : KnowledgeBase :=
  {| schemes := flat_map (fun _ => schemes sampleKb) (seq 0 15);
     entry_points := entry_points sampleKb |}.

(* ================================================================== *)
(** ** Generic array operations *)

(** [l.slice(from, to)] for integer arguments (a negative index counts from
    the end). *)
Definition slice {A : Type} (l : list A) (from to : Z) : list A :=
  let len := Z.of_nat (List.length l) in
  let k := if (from <? 0)%Z then Z.max (len + from) 0 else Z.min from len in
  let e := if (to <? 0)%Z then Z.max (len + to) 0 else Z.min to len in
  firstn (Z.to_nat (e - k)) (skipn (Z.to_nat k) l).

(** [Array.prototype.sort(cmp)] is a stable sort; for a comparator that
    orders by a key its result is that of any stable sort.  Insertion from
    the right: [x] goes behind the elements that [cmp] puts strictly before
    it and stays in front of the others. *)
Fixpoint insert_sorted {A : Type} (cmp : A -> A -> Z) (x : A) (l : list A) : list A :=
  match l with
  | [] => [x]
  | y :: l' => if (cmp x y >? 0)%Z then y :: insert_sorted cmp x l' else x :: l
  end.

Definition sort {A : Type} (cmp : A -> A -> Z) (l : list A) : list A :=
  fold_right (insert_sorted cmp) [] l.

(** [a || b] on numbers ([0] is falsy). *)
Definition num_or (a b : Z) : Z := if (a =? 0)%Z then b else a.

(* ================================================================== *)
(** ** The engine *)

Section Engine.

Context {U : Unicode}.
Variable kb : KnowledgeBase.

(** *** TextNormalizer *)

Definition normalizeText (raw : jsstring) : jsstring :=
  fold_left (fun t sy => replace t (re sy) (norm sy)) SYNONYMS (trim raw).

(** [[^\p{L}\p{N}\s]]. *)
Definition isPunct (c : codepoint) : bool :=
  negb (isLetter c || isNumber c || isWhiteSpace c).

(** [t.replace(/[^\p{L}\p{N}\s]+/gu, " ")]: every maximal run of such
    characters becomes one space. *)
Fixpoint stripPunct (in_run : bool) (t : jsstring) : jsstring :=
  match t with
  | [] => []
  | c :: t' =>
      if isPunct c
      then (if in_run then stripPunct true t' else 32%N :: stripPunct true t')
      else c :: stripPunct false t'
  end.

(** [t.split(/\s+/)]: [cur] is the piece being read (reversed), [in_sep]
    tells that the previous character was white space. *)
Fixpoint split_from (cur : jsstring) (in_sep : bool) (t : jsstring) : list jsstring :=
  match t with
  | [] => [rev cur]
  | c :: t' =>
      if isWhiteSpace c
      then (if in_sep then split_from [] true t' else rev cur :: split_from [] true t')
      else split_from (c :: cur) false t'
  end.

Definition split_ws (t : jsstring) : list jsstring := split_from [] false t.

Definition tokenize (raw : jsstring) : list jsstring :=
  let t := stripPunct false (toLowerCase (normalizeText raw)) in
  let parts := filter truthy (split_ws t) in
  filter (fun w => negb (STOPWORDS_has w)) parts.

(** *** DomainClassifier *)

Definition detectDomainIdFromText (raw : jsstring) : option jsstring :=
  let t := toLowerCase (normalizeText raw) in
  if test (words ["financial aid"]) t || test (words ["comcare"]) t
     || test (anyOf ["assurance";"gstv";"cdc vouchers";"workfare";"wis"]) t
  then Some (u "financial")
  else if test (words ["housing"]) t
     || test (anyOf ["eviction";"evicted";"homeless";"rental";"shelter";"no place to stay"]) t
  then Some (u "housing")
  else if test (words ["medical"]) t || test (words ["health"]) t
     || test (anyOf ["clinic";"doctor";"gp";"polyclinic";"chas";"medifund";"medisave";
                     "medishield";"hospital bill"]) t
  then Some (u "healthcare")
  else if test (words ["seniors"]) t
     || test (anyOf ["elderly";"caregiver";"silver support";"aic"]) t
  then Some (u "seniors")
  else if test (words ["disability"]) t
     || test (anyOf ["pwd";"sgenable";"assistive";"atf";"eec"]) t
  then Some (u "disability")
  else if test (words ["legal"]) t
     || test (anyOf ["lab";"lawyer";"divorce";"court";"legal aid"]) t
  then Some (u "legal")
  else if test (words ["mental health"]) t
     || test (anyOf ["anxiety";"depression";"mindline";"1771";"stressed";"overwhelmed"]) t
  then Some (u "mental")
  else None.

(** The body of [softGuessDomainId]'s loop over [DOMAIN]: the score [s] of
    domain [d] for the text [t] and its tokens. *)
Definition domainScore (t : jsstring) (tokens : list jsstring) (d : Domain) : Z :=
  let hints := hints_of (dom_id d) in
  let s := 0%Z in
  let s := fold_left (fun s h =>
             let hh := toLowerCase (normalizeText h) in
             if includes t hh then (s + 3)%Z else s) hints s in
  let s := fold_left (fun s tok =>
             if existsb (fun h => includes (toLowerCase (normalizeText h)) tok) hints
             then (s + 1)%Z else s) tokens s in
  if includes t (dom_id d) then (s + 1)%Z else s.

Definition softGuessDomainId (raw : jsstring) : option jsstring :=
  let t := toLowerCase (normalizeText raw) in
  let tokens := tokenize t in
  let best := fold_left (fun best d =>
                let s := domainScore t tokens d in
                if (s >? snd best)%Z then (Some (dom_id d), s) else best)
              DOMAIN (None, 0%Z) in
  if (snd best >=? 3)%Z then fst best else None.

(** *** SchemeRetriever *)

Definition schemeTextForMatch (x : Scheme) : jsstring :=
  let all := [name_en x; name_zh x; summary_en x; summary_zh x]
             ++ map Some (keywords_en x) ++ map Some (keywords_zh x)
             ++ map Some (eligibility_en x) ++ map Some (eligibility_zh x)
             ++ map Some (how_to_apply_en x) ++ map Some (how_to_apply_zh x) in
  toLowerCase (normalizeText (join (u " ") (map or_empty (filter otruthy all)))).

(** [`${scheme.name_en || ""} ${scheme.name_zh || ""}`], normalised and
    lower-cased. *)
Definition nameHay (x : Scheme) : jsstring :=
  toLowerCase (normalizeText (or_empty (name_en x) ++ u " " ++ or_empty (name_zh x))).

(** [categoryBoost && scheme.category === categoryBoost]. *)
Definition boosted (x : Scheme) (categoryBoost : option jsstring) : bool :=
  match categoryBoost with
  | Some c => truthy c && str_eqb (category x) c
  | None => false
  end.

Definition scoreScheme (queryTokens : list jsstring) (x : Scheme)
    (categoryBoost : option jsstring) : Z :=
  let hay := schemeTextForMatch x in
  let score := 0%Z in
  let score := fold_left (fun score tok =>
                 if includes hay tok then (score + 3)%Z else score) queryTokens score in
  let score := if boosted x categoryBoost then (score + 10)%Z else score in
  let score := fold_left (fun score tok =>
                 if includes (nameHay x) tok then (score + 2)%Z else score) queryTokens score in
  let score := if (List.length queryTokens <=? 2)%nat && boosted x categoryBoost
               then (score + 2)%Z else score in
  score.

(** [d?.cat || null]. *)
Definition catOf (d : option Domain) : option jsstring :=
  match d with
  | Some d' => if truthy (cat d') then Some (cat d') else None
  | None => None
  end.

(** [kb.schemes.map(s => ({ s, score: scoreScheme(tokens, s, d?.cat || null) }))]. *)
Definition scoreAll (query : jsstring) (dId : option jsstring) : list Scored :=
  let d := domainById dId in
  let tokens := tokenize query in
  map (fun x => {| sch := x; score := scoreScheme tokens x (catOf d) |}) (schemes kb).

Definition retrieveAllSchemes (query : jsstring) (dId : option jsstring) : Retrieval :=
  let scored := sort (fun a b => (score b - score a)%Z) (scoreAll query dId) in
  let matched := firstn MAX_MATCHES_CAP (filter (fun x => (score x >? 0)%Z) scored) in
  let bestScore := match scored with x :: _ => score x | [] => 0%Z end in
  let lowConfidence := (bestScore <? 5)%Z in
  {| matched := matched; lowConfidence := lowConfidence; bestScore := bestScore |}.

(** *** DialogOrchestrator: cards and quick replies *)

Definition formatScheme (x : Scheme) (l : jsstring) (f : jsstring) : Card :=
  {| card_id := scheme_id x;
     title := langPick l (name_en x) (name_zh x);
     summary := langPick l (summary_en x) (summary_zh x);
     eligibility := if is_zh l then eligibility_zh x else eligibility_en x;
     steps := if is_zh l then how_to_apply_zh x else how_to_apply_en x;
     links := slice (official_links x) 0 3;
     contacts := None;
     card_focus := f |}.

Definition entryPointsCards (l : jsstring) : list Card :=
  map (fun ep =>
         {| card_id := ep_id ep;
            title := langPick l (ep_name_en ep) (ep_name_zh ep);
            summary := Some [];
            eligibility := [];
            steps := [];
            links := ep_links ep;
            contacts := ep_contacts ep;
            card_focus := u "entry" |})
      (entry_points kb).

(** The callback of [makeQuickReplies]'s [map]. *)
Definition makeQuickReply (idx : nat) (it : Item) : QuickReply :=
  {| qr_id := if otruthy (it_id it) then or_empty (it_id it) else index_string idx;
     label := it_label it;
     sendText := if otruthy (it_sendText it) then or_empty (it_sendText it) else it_label it;
     action := it_action it |}.

Fixpoint makeQuickReplies_from (idx : nat) (items : list Item) : list QuickReply :=
  match items with
  | [] => []
  | it :: rest => makeQuickReply idx it :: makeQuickReplies_from (S idx) rest
  end.

Definition makeQuickReplies (items : list Item) : list QuickReply :=
  makeQuickReplies_from 0 items.

(** [{ type: t }]. *)
Definition act (t : string) : Action :=
  {| action_type := Some (u t); action_domainId := None;
     action_focus := None; action_text := None |}.

(** [{ type: "SET_DOMAIN", domainId: d }]. *)
Definition act_SET_DOMAIN (d : jsstring) : Action :=
  {| action_type := Some (u "SET_DOMAIN"); action_domainId := Some d;
     action_focus := None; action_text := None |}.

(** [{ type: "SET_FOCUS", focus: f }]. *)
Definition act_SET_FOCUS (f : string) : Action :=
  {| action_type := Some (u "SET_FOCUS"); action_domainId := None;
     action_focus := Some (u f); action_text := None |}.

(** [{ type: "ADD_QUERY", text: t }]. *)
Definition act_ADD_QUERY (t : string) : Action :=
  {| action_type := Some (u "ADD_QUERY"); action_domainId := None;
     action_focus := None; action_text := Some (u t) |}.

(** [{ id, label, action }]. *)
Definition item (i : jsstring) (l : string) (a : Action) : Item :=
  {| it_id := Some i; it_label := u l; it_sendText := None; it_action := a |}.

(** A quick reply spread into the argument of [makeQuickReplies]. *)
Definition as_item (q : QuickReply) : Item :=
  {| it_id := Some (qr_id q); it_label := label q;
     it_sendText := Some (sendText q); it_action := action q |}.

Definition baseNavQuickReplies (l : jsstring) : list QuickReply :=
  makeQuickReplies
    [ item (u "back_topics") (if is_zh l then "返回主题" else "Back to topics") (act "BACK_TOPICS");
      item (u "restart") (if is_zh l then "重新开始" else "Restart") (act "RESTART") ].

Definition endQuickReply (l : jsstring) : QuickReply :=
  makeQuickReply 0 (item (u "end") (if is_zh l then "结束" else "End") (act "END")).

Definition escalateQuickReply (l : jsstring) : QuickReply :=
  makeQuickReply 0
    (item (u "escalate") (if is_zh l then "转人工" else "Talk to a human") (act "ESCALATE")).

Definition topicQuickReplies (l : jsstring) : list QuickReply :=
  let topics :=
    map (fun d =>
           {| it_id := Some (u "topic_" ++ dom_id d);
              it_label := or_empty (langPick l (Some (en d)) (Some (zh d)));
              it_sendText := None;
              it_action := act_SET_DOMAIN (dom_id d) |}) DOMAIN in
  let topics := topics ++
    [ item (u "urgent") (if is_zh l then "我现在很紧急" else "This is urgent") (act "URGENT") ] in
  let topics := topics ++
    [ item (u "end") (if is_zh l then "结束" else "End") (act "END") ] in
  makeQuickReplies topics.

Definition focusQuickReplies (l : jsstring) : list QuickReply :=
  makeQuickReplies
    ([ item (u "overview") (if is_zh l then "先看概览" else "Overview") (act_SET_FOCUS "overview");
       item (u "eligibility") (if is_zh l then "我想看资格" else "Eligibility")
            (act_SET_FOCUS "eligibility");
       item (u "steps") (if is_zh l then "我想看申请步骤" else "How to apply")
            (act_SET_FOCUS "steps") ]
     ++ map as_item (baseNavQuickReplies l)
     ++ [ as_item (endQuickReply l) ]).

(** [domainId === i], the test of a [case i:] label of [switch (domainId)]. *)
Definition is_id (dId : option jsstring) (i : string) : bool :=
  match dId with Some d => str_eqb d (u i) | None => false end.

Definition empathyStart (dId : option jsstring) (l : jsstring) : jsstring :=
  let z := is_zh l in
  if is_id dId "financial" then
    u (if z then "明白，经济压力真的会让人喘不过气。我们先找最直接可行的官方方案。"
       else "I hear you — money stress can be heavy. Let’s start with the most workable official options.")
  else if is_id dId "housing" then
    u (if z then "听起来你在处理住宿压力，这种情况很不容易。我们先确保你有安全可行的下一步。"
       else "That sounds tough. Let’s make sure you have a safe, practical next step first.")
  else if is_id dId "healthcare" then
    u (if z then "我明白，身体不舒服或医药费压力会很焦虑。我们先看最直接的补贴/减免入口。"
       else "I’m sorry you’re dealing with this. Let’s look at the most direct subsidy/relief routes.")
  else if is_id dId "mental" then
    u (if z then "我听到了你的压力。你不需要一个人扛着，我们一步一步来。"
       else "I hear you. You don’t have to handle this alone — we’ll take it one step at a time.")
  else if is_id dId "seniors" then
    u (if z then "明白，我们先把适合长者/照护者的官方入口整理出来。"
       else "Got it. Let’s narrow down the best official support for seniors/caregivers.")
  else if is_id dId "disability" then
    u (if z then "明白，我们先看最匹配的残障支持与申请路径。"
       else "Got it. Let’s look at the most relevant disability support and application route.")
  else if is_id dId "legal" then
    u (if z then "明白，法律问题往往很耗心力。我们先从官方援助入口开始。"
       else "Got it — legal issues can be stressful. Let’s start from official aid entry points.")
  else
    u (if z then "明白。我们先把方向收敛一下。" else "Got it. Let’s narrow this down.").

Definition askOneClarifier (dId : option jsstring) (l : jsstring) : jsstring :=
  let z := is_zh l in
  if is_id dId "healthcare" then
    u (if z then "你更接近哪种情况？A 诊所/门诊补贴（例如 CHAS）｜B 住院/医院账单需要减免（例如 MediFund/医疗社工）"
       else "Which is closer? A) clinic/outpatient subsidies (e.g., CHAS) or B) help with a hospital bill (e.g., MediFund/Medical Social Worker)?")
  else if is_id dId "housing" then
    u (if z then "这是“今天/今晚没地方住”的紧急情况吗？（是/否）"
       else "Is this urgent — no place to stay today/tonight? (yes/no)")
  else if is_id dId "financial" then
    u (if z then "你现在最急的是：A 日常生活费/食物｜B 账单欠费｜C 短期现金周转？"
       else "What’s most urgent: A) daily expenses/food, B) overdue bills, or C) short-term cash help?")
  else if is_id dId "mental" then
    u (if z then "你希望我优先给：A 先有人倾听/匿名支持｜B 专业转介与下一步？"
       else "Do you prefer A) someone to talk to anonymously, or B) professional referral/next steps?")
  else
    u (if z then "你想先看：A 资格条件（我是否符合）｜B 申请步骤（怎么做/去哪办）？"
       else "Would you like A) eligibility criteria, or B) step-by-step how/where to apply?").

(** The tail [...baseNavQuickReplies(lang), endQuickReply(lang)] of every
    preset list. *)
Definition navItems (l : jsstring) : list Item :=
  map as_item (baseNavQuickReplies l) ++ [ as_item (endQuickReply l) ].

Definition domainPresets (dId : option jsstring) (l : jsstring) : list QuickReply :=
  let z := is_zh l in
  if is_id dId "financial" then
    makeQuickReplies
      ([ item (u "daily") (if z then "日常生活费/食物" else "Daily expenses / food")
              (act_ADD_QUERY (if z then "生活费 食物" else "daily expenses food"));
         item (u "bills") (if z then "账单/水电费" else "Bills / utilities")
              (act_ADD_QUERY (if z then "账单 水电费" else "bills utilities"));
         item (u "rent") (if z then "租金压力" else "Rent problems")
              (act_ADD_QUERY (if z then "租金" else "rent")) ] ++ navItems l)
  else if is_id dId "housing" then
    makeQuickReplies
      ([ item (u "no_place") (if z then "今天没地方住" else "No place to stay today") (act "URGENT");
         item (u "rental") (if z then "公共租赁/租房" else "Public rental / renting")
              (act_ADD_QUERY (if z then "公共租赁 租房" else "public rental"));
         item (u "temp") (if z then "过渡/临时安置" else "Temporary shelter")
              (act_ADD_QUERY (if z then "临时安置 shelter" else "temporary shelter")) ]
       ++ navItems l)
  else if is_id dId "healthcare" then
    makeQuickReplies
      ([ item (u "clinic") (if z then "诊所/门诊补贴" else "Clinic/outpatient subsidy")
              (act_ADD_QUERY (if z then "CHAS 门诊 诊所" else "CHAS clinic outpatient"));
         item (u "hospital") (if z then "医院账单付不起" else "Can't afford hospital bill")
              (act_ADD_QUERY (if z then "医院账单 付不起 MediFund" else "hospital bill MediFund"));
         item (u "insurance") (if z then "保险/保费" else "Insurance / premiums")
              (act_ADD_QUERY (if z then "MediShield Life 保费" else "MediShield Life premiums")) ]
       ++ navItems l)
  else if is_id dId "seniors" then
    makeQuickReplies
      ([ item (u "cash") (if z then "现金补助" else "Cash support")
              (act_ADD_QUERY (if z then "现金补助 Silver Support" else "cash support Silver Support"));
         item (u "care") (if z then "照护服务" else "Care services")
              (act_ADD_QUERY (if z then "照护服务 AIC" else "care services AIC"));
         item (u "caregiver") (if z then "照护者资源" else "Caregiver support")
              (act_ADD_QUERY (if z then "照护者 支持" else "caregiver support")) ]
       ++ navItems l)
  else if is_id dId "disability" then
    makeQuickReplies
      ([ item (u "assistive") (if z then "辅助器材补贴" else "Assistive tech subsidy")
              (act_ADD_QUERY (if z then "辅助器材 ATF" else "assistive technology fund ATF"));
         item (u "jobs") (if z then "就业支持" else "Employment support")
              (act_ADD_QUERY (if z then "残障 就业" else "disability employment")) ]
       ++ navItems l)
  else if is_id dId "legal" then
    makeQuickReplies
      ([ item (u "legal_aid") (if z then "法律援助申请" else "Apply for legal aid")
              (act_ADD_QUERY (if z then "法律援助 LAB" else "legal aid LAB"));
         item (u "family") (if z then "家庭/离婚" else "Family/divorce")
              (act_ADD_QUERY (if z then "离婚 家庭" else "divorce family law")) ]
       ++ navItems l)
  else if is_id dId "mental" then
    makeQuickReplies
      ([ item (u "talk") (if z then "想找人聊聊" else "I need someone to talk to")
              (act_ADD_QUERY (if z then "心理支持 倾诉" else "mental health support talk"));
         item (u "urgent_mental") (if z then "我很危险/想伤害自己"
                                   else "I'm in danger / self-harm thoughts") (act "SENSITIVE") ]
       ++ navItems l)
  else makeQuickReplies (navItems l).

(** *** DialogOrchestrator: messages *)

Definition assistant : jsstring := u "assistant".

Definition noMoreResultsMessage (l : jsstring) (dId : option jsstring) : Message :=
  let z := is_zh l in
  let text :=
    if z
    then u "我这边已经没有更多匹配结果了。" ++ nl ++ nl
         ++ u "如果你希望进一步确认适用方案或需要更个性化的协助，可以选择“转人工”。"
    else u "I don’t have more matched results to show." ++ nl ++ nl
         ++ u "If you need more tailored help or want to confirm what applies to you, you can choose “Talk to a human”." in
  {| role := assistant;
     text := text;
     cards := [];
     quickReplies :=
       makeQuickReplies
         ([ item (u "escalate") (if z then "转人工" else "Talk to a human") (act "ESCALATE") ]
          ++ navItems l) |}.

Definition endConversationMessage (l : jsstring) : Message :=
  let z := is_zh l in
  let text :=
    if z
    then u "希望我提供的信息能帮助到您。" ++ nl ++ nl
         ++ u "如果之后还需要我协助，你随时可以点击“重新开始”或“返回主题”。"
    else u "I hope the information I shared was helpful." ++ nl ++ nl
         ++ u "If you need help later, you can always tap “Restart” or “Back to topics”." in
  {| role := assistant;
     text := text;
     cards := [];
     quickReplies :=
       makeQuickReplies
         [ item (u "back_topics") (if z then "返回主题" else "Back to topics") (act "BACK_TOPICS");
           item (u "restart") (if z then "重新开始" else "Restart") (act "RESTART") ] |}.

(** The message of [buildResultsMessage] when nothing matched. *)
Definition noMatchMessage (l : jsstring) : Message :=
  let z := is_zh l in
  {| role := assistant;
     text :=
       u (if z
          then "我暂时没在知识库里匹配到非常具体的项目。别担心——你可以先从这些官方入口开始（能转介/查询），或者换一种说法（例如加上‘住院/诊所/账单’这类关键词）。"
          else "I couldn’t match a specific scheme in the KB yet. No worries — start from these official entry points (they can refer you), or rephrase with a bit more detail (e.g., ‘clinic/hospital/bills’).");
     cards := entryPointsCards l;
     quickReplies :=
       makeQuickReplies
         ([ item (u "rephrase") (if z then "我补充一句细节" else "I’ll add one detail") (act "NOOP") ]
          ++ navItems l) |}.

(** The message of [buildResultsMessage] for a non-empty page: [page] is
    the slice of the ranked list, [hasMore] tells whether entries follow. *)
Definition pageMessage (l : jsstring) (dId : option jsstring) (f : jsstring)
    (low : bool) (page : list Scheme) (hasMore : bool) : Message :=
  let z := is_zh l in
  let domain := domainById dId in
  let dname := show (langPick l (option_map en domain) (option_map zh domain)) in
  let intro :=
    if low
    then (if z
          then u "我先给你几个“可能相关”的官方项目（基于：" ++ dname
               ++ u "）。如果方向不对，点“返回主题”就能重来。"
          else u "Here are a few *possibly relevant* official schemes (based on: " ++ dname
               ++ u "). If this isn’t right, tap “Back to topics”.")
    else (if z
          then u "我找到最相关的官方项目（" ++ dname
               ++ u "）。你想先看“资格”还是“申请步骤”？"
          else u "I found the most relevant official schemes (" ++ dname
               ++ u "). Do you want “Eligibility” or “How to apply” first?") in
  let cards := map (fun x => formatScheme x l f) page in
  let focusChips :=
    [ item (u "overview") (if z then "概览" else "Overview") (act_SET_FOCUS "overview");
      item (u "eligibility") (if z then "资格" else "Eligibility") (act_SET_FOCUS "eligibility");
      item (u "steps") (if z then "步骤" else "Steps") (act_SET_FOCUS "steps") ] in
  let focusChips :=
    if hasMore
    then focusChips ++ [ item (u "more") (if z then "更多结果" else "More results")
                              (act "MORE_RESULTS") ]
    else focusChips in
  {| role := assistant;
     text := intro;
     cards := cards;
     quickReplies := makeQuickReplies (focusChips ++ navItems l) |}.

Definition buildResultsMessage (l : jsstring) (dId : option jsstring)
    (f query : jsstring) (off psize : Z) : Message :=
  let r := retrieveAllSchemes query dId in
  let total := Z.of_nat (List.length (matched r)) in
  if (total =? 0)%Z then noMatchMessage l
  else if (off >=? total)%Z then noMoreResultsMessage l dId
  else
    let page := map sch (slice (matched r) off (off + psize)) in
    let hasMore := (off + psize <? total)%Z in
    pageMessage l dId f (lowConfidence r) page hasMore.

Definition urgentMessage (l : jsstring) : Message :=
  let z := is_zh l in
  {| role := assistant;
     text :=
       u (if z
          then "明白，这听起来比较紧急。为了让你马上有可走的下一步，我先给你最直接的官方入口（可转介/联系）。如果你愿意，也可以再说一句：你现在最急的是住房/钱/医疗哪一块？我会把步骤整理成 1-2-3。"
          else "Got it — this sounds urgent. To help immediately, here are official entry points you can contact first. If you’d like, tell me in one sentence whether this is mainly housing/money/healthcare, and I’ll turn it into a clear 1-2-3 plan.");
     cards := entryPointsCards l;
     quickReplies := makeQuickReplies (map as_item (topicQuickReplies l)) |}.

Definition sensitiveMessage (l : jsstring) : Message :=
  let z := is_zh l in
  {| role := assistant;
     text :=
       u (if z
          then "谢谢你告诉我。如果你现在有自伤/他伤风险或处在危险中，请立刻联系紧急服务（999）或使用 national mindline 1771（24/7）。如果你愿意，你也可以回我一句：你更想‘有人倾听’还是‘获得转介与下一步’，我会继续帮你。"
          else "Thanks for telling me. If you’re in immediate danger or at risk of self-harm, contact emergency services (999) or national mindline 1771 (24/7). If you want, tell me whether you prefer ‘someone to talk to’ or ‘referral/next steps’, and I’ll continue.");
     cards := entryPointsCards l;
     quickReplies := topicQuickReplies l |}.

(** *** DialogOrchestrator: public API *)

Definition initDialogState (l : jsstring) : DialogState :=
  {| lang := l;
     step := choose_domain;
     domainId := None;
     focus := u "overview";
     lastQuery := [];
     offset := 0;
     pageSize := DEFAULT_PAGE_SIZE;
     ended := false |}.

Definition getInitialAssistantMessage (l : jsstring) : Message :=
  {| role := assistant;
     text :=
       u (if is_zh l
          then "你好！你可以直接用一句话描述情况（例如：‘医药费太贵’ / ‘今晚没地方住’ / ‘我很焦虑’），我会从官方渠道帮你找到下一步。你现在最需要哪一类帮助？"
          else "Hi! You can describe your situation in one sentence (e.g., ‘medical bills are too expensive’ / ‘no place to stay tonight’ / ‘I feel overwhelmed’). I’ll help you find the next steps from official sources. What kind of help do you need?");
     cards := [];
     quickReplies := topicQuickReplies l |}.

(** [{ role: "assistant", text, cards: [], quickReplies }]. *)
Definition say (t : jsstring) (qs : list QuickReply) : Message :=
  {| role := assistant; text := t; cards := []; quickReplies := qs |}.

(** [{ state, message }] with a message. *)
Definition ret (st : DialogState) (m : Message) : option Result :=
  Some {| state := st; message := Some m |}.

(** [{ ...state, step: "choose_domain", domainId: null, lastQuery: "", offset: 0 }]. *)
Definition toTopics (st : DialogState) : DialogState :=
  set_offset 0 (set_lastQuery [] (set_domainId None (set_step choose_domain st))).

Definition handleUserText (state : DialogState) (userText : jsstring) : option Result :=
  let l := lang state in
  let raw := trim userText in
  let z := is_zh l in
  if ended state then
    let revived := initDialogState l in
    ret revived
        (say (u (if z then "好的，我们重新开始。你现在最需要哪一类帮助？"
                 else "Sure — let’s restart. What kind of help do you need?"))
             (topicQuickReplies l))
  else if negb (truthy raw) then
    ret state
        (say (u (if z then "你可以直接选择一个主题，或者用一句话描述你的情况（越像日常说法越好）。"
                 else "You can pick a topic, or describe your situation in one natural sentence."))
             (match step state with
              | choose_domain => topicQuickReplies l
              | _ => domainPresets (domainId state) l
              end))
  else if containsAny raw SENSITIVE_TRIGGERS then
    ret (toTopics state) (sensitiveMessage l)
  else if containsAny raw URGENT_TRIGGERS then
    ret (toTopics state) (urgentMessage l)
  else
    let detectedHard := detectDomainIdFromText raw in
    let detectedSoft := or_else detectedHard (softGuessDomainId raw) in
    let detectedDomain := detectedSoft in
    match step state with
    | choose_domain =>
        if otruthy detectedDomain then
          let next := set_offset 0 (set_domainId detectedDomain (set_step choose_focus state)) in
          match domainById detectedDomain with
          | None => None
          | Some d =>
              let dname := show (langPick l (Some (en d)) (Some (zh d))) in
              let text :=
                if z
                then empathyStart detectedDomain l ++ nl ++ nl
                     ++ u "好的，我们先从「" ++ dname ++ u "」开始。你想先看哪一类信息？"
                else empathyStart detectedDomain l ++ nl ++ nl
                     ++ u "OK — let’s start with “" ++ dname ++ u "”. What do you want first?" in
              ret next (say text (focusQuickReplies l))
          end
        else
          let text :=
            if z
            then u "我还没完全确定你属于哪一类，但我想先接住你。" ++ nl ++ nl
                 ++ u "你更接近下面哪一个？（也可以直接再说一句细节，例如‘住院账单’/‘租金欠费’/‘很焦虑’）"
            else u "I’m not fully sure which category this falls under yet, but I want to help."
                 ++ nl ++ nl
                 ++ u "Which is closest? (Or add one detail like ‘hospital bill’ / ‘rent arrears’ / ‘feeling overwhelmed’.)" in
          ret state (say text (topicQuickReplies l))
    | choose_focus =>
        let q := raw in
        let next := set_offset 0 (set_lastQuery q (set_step refine_and_show state)) in
        ret next (buildResultsMessage l (domainId next) (focus next) q
                                      (offset next) (pageSize next))
    | refine_and_show =>
        let next := set_offset 0 (set_lastQuery raw (set_step refine_and_show state)) in
        ret next (buildResultsMessage l (domainId next) (focus next) (lastQuery next)
                                      (offset next) (pageSize next))
    end.

(** [action.type === t], the test of a [case t:] label. *)
Definition is_type (a : Action) (t : string) : bool :=
  match action_type a with Some ty => str_eqb ty (u t) | None => false end.

Definition handleAction (state : DialogState) (action : option Action) : option Result :=
  let l := lang state in
  let z := is_zh l in
  match action with
  | None => Some {| state := state; message := None |}
  | Some a =>
      if negb (otruthy (action_type a)) then Some {| state := state; message := None |}
      else if is_type a "RESTART" then
        let s := initDialogState l in
        ret s (getInitialAssistantMessage l)
      else if is_type a "END" then
        let s := set_ended true state in
        ret s (endConversationMessage l)
      else if is_type a "ESCALATE" then
        let text := u (if z then "好的，我帮你转接人工支持。"
                       else "Okay — I’ll connect you to human support.") in
        ret state (say text (makeQuickReplies (navItems l)))
      else if is_type a "BACK_TOPICS" then
        let s := set_ended false (toTopics state) in
        ret s (say (u (if z then "好的，我们回到一开始。你可以点主题，也可以直接说一句你遇到的情况。"
                       else "Sure — back to the start. You can tap a topic, or just tell me what’s going on in one sentence."))
                   (topicQuickReplies l))
      else if is_type a "URGENT" then
        let s := set_ended false (toTopics state) in
        ret s (urgentMessage l)
      else if is_type a "SENSITIVE" then
        let s := set_ended false (toTopics state) in
        ret s (sensitiveMessage l)
      else if is_type a "SET_DOMAIN" then
        let d := domainById (action_domainId a) in
        let s := set_ended false (set_offset 0 (set_lastQuery []
                   (set_domainId (action_domainId a) (set_step choose_focus state)))) in
        match d with
        | None => None
        | Some d =>
            let dname := show (langPick l (Some (en d)) (Some (zh d))) in
            let text :=
              if z
              then empathyStart (action_domainId a) l ++ nl ++ nl
                   ++ u "好的，我们从「" ++ dname ++ u "」开始。你想先看哪一类信息？"
              else empathyStart (action_domainId a) l ++ nl ++ nl
                   ++ u "OK — starting with “" ++ dname ++ u "”. What do you want first?" in
            ret s (say text (focusQuickReplies l))
        end
      else if is_type a "SET_FOCUS" then
        let s := set_offset 0
                   (set_focus (or_empty (or_else (action_focus a) (Some (u "overview")))) state) in
        if match step s with refine_and_show => truthy (lastQuery s) | _ => false end then
          ret s (buildResultsMessage l (domainId s) (focus s) (lastQuery s)
                                     (offset s) (pageSize s))
        else
          let text :=
            if z
            then u "明白。" ++ askOneClarifier (domainId s) l ++ nl ++ nl
                 ++ u "你也可以直接用一句话描述，我会马上给你最相关的官方项目。"
            else u "Got it. " ++ askOneClarifier (domainId s) l ++ nl ++ nl
                 ++ u "Or describe it in one sentence — I’ll show the most relevant official schemes right away." in
          ret (set_step refine_and_show s) (say text (domainPresets (domainId s) l))
      else if is_type a "ADD_QUERY" then
        let added := trim (or_empty (action_text a)) in
        let q := if truthy (lastQuery state)
                 then trim (lastQuery state ++ u " " ++ added) else added in
        let s := set_offset 0 (set_lastQuery q (set_step refine_and_show state)) in
        ret s (buildResultsMessage l (domainId s) (focus s) (lastQuery s)
                                   (offset s) (pageSize s))
      else if is_type a "MORE_RESULTS" then
        if negb (truthy (lastQuery state)) then
          ret state
              (say (u (if z
                       then "你先用一句话描述你的需求（例如‘住院账单’/‘租金欠费’/‘诊所补贴’），我才能给你更相关的更多结果。"
                       else "Describe your need in one sentence first (e.g., ‘hospital bill’ / ‘rent arrears’ / ‘clinic subsidy’), and I’ll fetch more relevant results."))
                   (domainPresets (domainId state) l))
        else
          let nextOffset := (num_or (offset state) 0 + num_or (pageSize state) DEFAULT_PAGE_SIZE)%Z in
          let s := set_offset nextOffset state in
          let msg := buildResultsMessage l (domainId s) (focus s) (lastQuery s)
                                         (offset s) (pageSize s) in
          ret s msg
      else Some {| state := state; message := None |}
  end.

(** *** Notions the properties are stated with *)

(** The [case] labels of [handleAction]'s [switch]. *)
Definition ACTION_TYPES : list string :=
  ["RESTART"; "END"; "ESCALATE"; "BACK_TOPICS"; "URGENT"; "SENSITIVE";
   "SET_DOMAIN"; "SET_FOCUS"; "ADD_QUERY"; "MORE_RESULTS"; "NOOP"].

(** The action is an object whose [type] is one of the labels. *)
Definition recognized (action : option Action) : bool :=
  match action with
  | Some a => existsb (is_type a) ACTION_TYPES
  | None => false
  end.

(** The states a conversation can be in: it starts from [initDialogState]
    and every turn keeps the state an entry point returned. *)
Inductive reachable : DialogState -> Prop :=
| reach_init : forall l, reachable (initDialogState l)
| reach_text : forall st userText r,
    reachable st -> handleUserText st userText = Some r -> reachable (state r)
| reach_action : forall st action r,
    reachable st -> handleAction st action = Some r -> reachable (state r).

(** The number of query tokens that occur as substrings of [hay]. *)
Definition tokensIn (hay : jsstring) (queryTokens : list jsstring) : Z :=
  Z.of_nat (List.length (filter (includes hay) queryTokens)).

(** The order of the ranked list: descending score. *)
Definition byScore (a b : Scored) : Prop := (score b <= score a)%Z.

(** The lower-cased normal form in which the soft classifier reads a hint. *)
Definition hintForm (h : jsstring) : jsstring := toLowerCase (normalizeText h).

(** The soft classifier as the specification words it, for comparison with
    [softGuessDomainId]: 3 for each hint phrase of the domain (as it stands
    in [DOMAIN_HINTS]) contained in the text, 1 for each query token contained
    in a hint phrase, 1 if the text contains the domain's id; the first
    domain of the highest score, if that is at least 3. *)
Definition domainScore_as_stated (t : jsstring) (tokens : list jsstring) (d : Domain) : Z :=
  let hints := hints_of (dom_id d) in
  (3 * Z.of_nat (List.length (filter (fun h => includes t h) hints))
   + Z.of_nat (List.length (filter (fun tok => existsb (fun h => includes h tok) hints) tokens))
   + (if includes t (dom_id d) then 1 else 0))%Z.

Definition softGuess_as_stated (raw : jsstring) : option jsstring :=
  let t := toLowerCase (normalizeText raw) in
  let tokens := tokenize t in
  let best := fold_left (fun best d =>
                let s := domainScore_as_stated t tokens d in
                if (s >? snd best)%Z then (Some (dom_id d), s) else best)
              DOMAIN (None, 0%Z) in
  if (snd best >=? 3)%Z then fst best else None.

(** What [tokenize] guarantees of each token. *)
Definition cleanToken (w : jsstring) : Prop :=
  w <> [] /\ Forall (fun c => isWhiteSpace c = false) w
  /\ Forall (fun c => isPunct c = false) w /\ STOPWORDS_has w = false.

(** [best] is what the loop of [softGuessDomainId] holds after the domains
    [seen]: the highest score so far (0 when none is positive) and the first
    domain that reached it. *)
Definition leads (f : Domain -> Z) (seen : list Domain) (best : option jsstring * Z) : Prop :=
  (0 <= snd best)%Z /\ (forall e, In e seen -> (f e <= snd best)%Z)
  /\ match fst best with
     | None => snd best = 0%Z
     | Some i =>
         exists pre d post,
           seen = pre ++ d :: post /\ dom_id d = i /\ f d = snd best /\ (0 < f d)%Z
           /\ (forall e, In e pre -> (f e < f d)%Z)
           /\ (forall e, In e post -> (f e <= f d)%Z)
     end.

(** The cards of a returned message ([null] carries none). *)
Definition cardsOf (r : option Result) : list Card :=
  match r with
  | Some {| message := Some m |} => cards m
  | _ => []
  end.

Definition MORE_RESULTS : option Action := Some (act "MORE_RESULTS").

(** The card pages of [n] successive [MORE_RESULTS] actions from [st] on. *)
Fixpoint morePages (n : nat) (st : DialogState) : list (list Card) :=
  match n with
  | O => []
  | S n' =>
      match handleAction st MORE_RESULTS with
      | Some r => cardsOf (Some r) :: morePages n' (state r)
      | None => []
      end
  end.

(** The ranked list of a state's query, as cards under its focus. *)
Definition rankedCards (st : DialogState) : list Card :=
  map (fun x => formatScheme (sch x) (lang st) (focus st))
      (matched (retrieveAllSchemes (lastQuery st) (domainId st))).

(** *** Notions of the further properties *)

(** The action can be handed back to [handleAction]: its type is a label of
    the switch, and a SET_DOMAIN names a domain of [DOMAIN]. *)
Definition acceptable (a : Action) : bool :=
  existsb (is_type a) ACTION_TYPES
  && (negb (is_type a "SET_DOMAIN")
      || match domainById (action_domainId a) with Some _ => true | None => false end).

(** No string occurs twice. *)
Fixpoint distinct (l : list jsstring) : bool :=
  match l with
  | [] => true
  | x :: r => negb (existsb (str_eqb x) r) && distinct r
  end.

(** A quick-reply menu the presentation layer can show and feed back: it is
    not empty, its ids (the keys of the buttons) are distinct, and every
    action is [acceptable]. *)
Definition menuOk (qs : list QuickReply) : bool :=
  match qs with [] => false | _ => true end && distinct (map qr_id qs)
  && forallb (fun q => acceptable (action q)) qs.

(** The messages the engine hands to the presentation layer. *)
Inductive emitted : Message -> Prop :=
| emitted_initial : forall l, emitted (getInitialAssistantMessage l)
| emitted_text : forall st userText r m,
    handleUserText st userText = Some r -> message r = Some m -> emitted m
| emitted_action : forall st action r m,
    handleAction st action = Some r -> message r = Some m -> emitted m.

(** The shape of a state by its step: before a domain is chosen nothing is
    held; while the focus is chosen a domain of [DOMAIN] is held and no query;
    the pagination cursor is off zero only over a query. *)
Definition wellShaped (st : DialogState) : Prop :=
  (domainId st = None \/ domainById (domainId st) <> None)
  /\ (step st = choose_domain ->
      domainId st = None /\ lastQuery st = [] /\ offset st = 0%Z)
  /\ (step st = choose_focus ->
      domainById (domainId st) <> None /\ lastQuery st = [] /\ offset st = 0%Z)
  /\ (offset st <> 0%Z -> step st = refine_and_show /\ lastQuery st <> []).

(** The scoring as the specification words it, for comparison with
    [scoreScheme].  The fields of a scheme that take part in the match: both
    names, both summaries, the keywords, the eligibility points and the
    how-to-apply steps, those that are present and not empty. *)
Definition matchFields (x : Scheme) : list jsstring :=
  filter truthy
    (map or_empty [name_en x; name_zh x; summary_en x; summary_zh x]
     ++ keywords_en x ++ keywords_zh x
     ++ eligibility_en x ++ eligibility_zh x
     ++ how_to_apply_en x ++ how_to_apply_zh x).

(** The name fields alone: the names that are present and not empty. *)
Definition nameFields (x : Scheme) : list jsstring :=
  filter truthy (map or_empty [name_en x; name_zh x]).

(** The text of a list of fields: joined by spaces, normalised, lower-cased. *)
Definition textOf (fields : list jsstring) : jsstring :=
  toLowerCase (normalizeText (join (u " ") fields)).

(** The hint equals the scheme's category. *)
Definition hintIs (x : Scheme) (hint : option jsstring) : bool :=
  match hint with Some c => str_eqb (category x) c | None => false end.

Definition score_as_stated (queryTokens : list jsstring) (x : Scheme)
    (hint : option jsstring) : Z :=
  (3 * tokensIn (textOf (matchFields x)) queryTokens
   + 2 * tokensIn (textOf (nameFields x)) queryTokens
   + (if hintIs x hint then 10 else 0)
   + (if hintIs x hint && (List.length queryTokens <=? 2)%nat then 2 else 0))%Z.

(** The hint [retrieveAllSchemes] scores with: the category of the domain
    that [domainId] names, null when it names none. *)
Definition hintOf (dId : option jsstring) : option jsstring :=
  option_map cat (domainById dId).

(* ================================================================== *)
(** ** Properties *)

(** *** Strings and tags *)

Lemma str_eqb_eq (a b : jsstring) : str_eqb a b = true <-> a = b.
Proof.
  revert b; induction a as [|x a IH]; intros [|y b]; simpl; split; intros H;
    try reflexivity; try discriminate.
  - apply andb_true_iff in H as [Hx Hab]. apply N.eqb_eq in Hx.
    apply IH in Hab. now subst.
  - inversion H; subst. apply andb_true_iff; split;
      [apply N.eqb_refl | now apply IH].
Qed.

Lemma str_eqb_refl (a : jsstring) : str_eqb a a = true.
Proof. now apply str_eqb_eq. Qed.

Lemma is_type_true (a : Action) (t : string) :
  is_type a t = true -> action_type a = Some (u t).
Proof.
  unfold is_type. destruct (action_type a) as [ty|]; [|discriminate].
  intros H. apply str_eqb_eq in H. now subst.
Qed.

(** Decide the comparisons of two literal tags in the goal. *)
Ltac eval_tags :=
  repeat match goal with
  | |- context [str_eqb (u ?a) (u ?b)] =>
      let v := eval vm_compute in (str_eqb (u a) (u b)) in
      change (str_eqb (u a) (u b)) with v
  | |- context [otruthy (Some (u ?a))] =>
      let v := eval vm_compute in (otruthy (Some (u a))) in
      change (otruthy (Some (u a))) with v
  end;
  cbv beta iota.

(** Unfold [handleAction] at an action whose tag is the literal [t]. *)
Ltac dispatch H :=
  apply is_type_true in H; unfold handleAction, is_type; rewrite H; eval_tags.

(** *** The state part of one turn *)

Lemma handleUserText_state st userText r :
  handleUserText st userText = Some r ->
  pageSize (state r) = pageSize st /\ (offset (state r) = offset st \/ offset (state r) = 0%Z)
  \/ state r = initDialogState (lang st).
Proof.
  unfold handleUserText, ret.
  destruct (ended st); [intros [= <-]; now right|].
  destruct (negb (truthy (trim userText))); [intros [= <-]; left; auto|].
  destruct (containsAny (trim userText) SENSITIVE_TRIGGERS);
    [intros [= <-]; left; simpl; auto|].
  destruct (containsAny (trim userText) URGENT_TRIGGERS);
    [intros [= <-]; left; simpl; auto|].
  destruct (step st).
  - destruct (otruthy _).
    + destruct (domainById _); [|discriminate]. intros [= <-]; left; simpl; auto.
    + intros [= <-]; left; auto.
  - intros [= <-]; left; simpl; auto.
  - intros [= <-]; left; simpl; auto.
Qed.

Lemma handleAction_state st action r :
  handleAction st action = Some r ->
  pageSize (state r) = pageSize st
  /\ (offset (state r) = offset st \/ offset (state r) = 0%Z
      \/ offset (state r)
         = (num_or (offset st) 0 + num_or (pageSize st) DEFAULT_PAGE_SIZE)%Z)
  \/ state r = initDialogState (lang st).
Proof.
  unfold handleAction, ret.
  destruct action as [a|]; [|intros [= <-]; left; auto].
  destruct (negb (otruthy (action_type a))); [intros [= <-]; left; auto|].
  destruct (is_type a "RESTART"); [intros [= <-]; now right|].
  destruct (is_type a "END"); [intros [= <-]; left; simpl; auto|].
  destruct (is_type a "ESCALATE"); [intros [= <-]; left; simpl; auto|].
  destruct (is_type a "BACK_TOPICS"); [intros [= <-]; left; simpl; auto|].
  destruct (is_type a "URGENT"); [intros [= <-]; left; simpl; auto|].
  destruct (is_type a "SENSITIVE"); [intros [= <-]; left; simpl; auto|].
  destruct (is_type a "SET_DOMAIN").
  { destruct (domainById _); [|discriminate]. intros [= <-]; left; simpl; auto. }
  destruct (is_type a "SET_FOCUS").
  { match goal with |- context [if ?c then _ else _] => destruct c end;
      intros [= <-]; left; simpl; auto. }
  destruct (is_type a "ADD_QUERY"); [intros [= <-]; left; simpl; auto|].
  destruct (is_type a "MORE_RESULTS"); [|intros [= <-]; left; auto].
  destruct (negb (truthy (lastQuery st))); intros [= <-]; left; simpl; auto.
Qed.

(** *** RESTART *)

(** C8. For every prior state, [handleAction] on an action whose type is
    RESTART (whatever else the action object carries) returns exactly the
    pair of [initDialogState (lang state)] and
    [getInitialAssistantMessage (lang state)]: nothing of the prior state but
    its language enters the result. *)
Theorem handleAction_RESTART st a :
  is_type a "RESTART" = true ->
  handleAction st (Some a)
  = Some {| state := initDialogState (lang st);
            message := Some (getInitialAssistantMessage (lang st)) |}.
Proof.
  intros H. dispatch H. reflexivity.
Qed.

(** *** Unrecognised actions *)

Lemma existsb_false_In {A : Type} (f : A -> bool) (l : list A) (x : A) :
  existsb f l = false -> In x l -> f x = false.
Proof.
  intros H Hin. destruct (f x) eqn:E; [|reflexivity].
  rewrite <- H. symmetry. apply existsb_exists. now exists x.
Qed.

(** C9. For every state and every action that is missing, has no type (or an
    empty one), or whose type is none of the labels of the switch,
    [handleAction] returns the input state unchanged together with a null
    message. *)
Theorem handleAction_unrecognized st action :
  recognized action = false ->
  handleAction st action = Some {| state := st; message := None |}.
Proof.
  intros H. destruct action as [a|]; [|reflexivity].
  unfold recognized in H.
  assert (T : forall t, In t ACTION_TYPES -> is_type a t = false)
    by (intros t; now apply existsb_false_In).
  unfold handleAction.
  destruct (negb (otruthy (action_type a))); [reflexivity|].
  repeat (rewrite T; [|unfold ACTION_TYPES; simpl; tauto]).
  reflexivity.
Qed.

(** *** Actions that revive an ended session *)

(** C10. BACK_TOPICS, URGENT, SENSITIVE and SET_DOMAIN (with the id of one of
    the domains of [DOMAIN]) each return a state whose [ended] flag is false,
    whatever the flag was before. *)
Theorem actions_clear_ended st a :
  is_type a "BACK_TOPICS" = true \/ is_type a "URGENT" = true
  \/ is_type a "SENSITIVE" = true
  \/ (is_type a "SET_DOMAIN" = true /\ domainById (action_domainId a) <> None) ->
  exists r, handleAction st (Some a) = Some r /\ ended (state r) = false.
Proof.
  intros [H|[H|[H|[H D]]]]; dispatch H.
  - eexists; split; [reflexivity|reflexivity].
  - eexists; split; [reflexivity|reflexivity].
  - eexists; split; [reflexivity|reflexivity].
  - destruct (domainById (action_domainId a)) as [d|]; [|contradiction].
    eexists; split; [reflexivity|reflexivity].
Qed.

(** *** Sensitive input *)

Lemma sensitive_not_empty : containsAny [] SENSITIVE_TRIGGERS = false.
Proof. reflexivity. Qed.

Lemma sensitive_not_urgent l : sensitiveMessage l <> urgentMessage l.
Proof.
  intros H. apply (f_equal text) in H. unfold sensitiveMessage, urgentMessage in H.
  cbv beta iota zeta delta [text] in H.
  destruct (is_zh l); vm_compute in H; discriminate.
Qed.

(** C1 (as amended). For every state whose [ended] flag is false and every
    input whose trimmed text matches a sensitive trigger (whether or not it
    also matches an urgent one), [handleUserText] returns the state reset to
    [choose_domain] with [domainId] cleared (and the query and offset reset),
    and the message is [sensitiveMessage], which carries the entry-point
    cards and differs from [urgentMessage].  For a state whose [ended] flag
    is true the same input re-initialises the session: the state is
    [initDialogState], again at [choose_domain] with no [domainId], and the
    message is the restart prompt without cards. *)
Theorem sensitive_takes_precedence st userText :
  containsAny (trim userText) SENSITIVE_TRIGGERS = true ->
  exists r, handleUserText st userText = Some r
    /\ step (state r) = choose_domain /\ domainId (state r) = None
    /\ (ended st = false ->
        state r = toTopics st
        /\ message r = Some (sensitiveMessage (lang st))
        /\ cards (sensitiveMessage (lang st)) = entryPointsCards (lang st)
        /\ sensitiveMessage (lang st) <> urgentMessage (lang st))
    /\ (ended st = true ->
        state r = initDialogState (lang st)
        /\ exists m, message r = Some m /\ cards m = []
           /\ quickReplies m = topicQuickReplies (lang st)).
Proof.
  intros H. unfold handleUserText, ret.
  destruct (ended st) eqn:E.
  - eexists; split; [reflexivity|]. cbn [state message].
    split; [reflexivity|]. split; [reflexivity|]. split; [discriminate|].
    intros _. split; [reflexivity|]. eexists. split; [reflexivity|].
    split; reflexivity.
  - destruct (trim userText) as [|c raw] eqn:R;
      [rewrite sensitive_not_empty in H; discriminate|].
    cbn [truthy negb]. rewrite H.
    eexists; split; [reflexivity|]. cbn [state message].
    split; [reflexivity|]. split; [reflexivity|]. split; [|discriminate].
    intros _. split; [reflexivity|]. split; [reflexivity|].
    split; [reflexivity|apply sensitive_not_urgent].
Qed.

(** *** The pagination cursor *)

Lemma num_or_zero (a : Z) : num_or a 0 = a.
Proof. unfold num_or. destruct (a =? 0)%Z eqn:E; [apply Z.eqb_eq in E; now subst|reflexivity]. Qed.

(** C5. In every state reachable from [initDialogState] by any sequence of
    [handleUserText] and [handleAction] calls, [pageSize] is 3 and [offset]
    is a non-negative multiple of it. *)
Theorem offset_multiple_of_pageSize st :
  reachable st ->
  pageSize st = 3%Z /\ (0 <= offset st)%Z /\ exists k, offset st = (k * pageSize st)%Z.
Proof.
  induction 1 as [l | st userText r _ IH H | st action r _ IH H].
  - simpl. repeat split; [lia|]. now exists 0%Z.
  - destruct IH as (P & O & k & K).
    apply handleUserText_state in H as [(P' & [O'|O'])|I].
    + rewrite P', O'. repeat split; auto. now exists k.
    + rewrite P', O'. repeat split; auto; [lia|]. now exists 0%Z.
    + rewrite I. simpl. repeat split; [lia|]. now exists 0%Z.
  - destruct IH as (P & O & k & K).
    apply handleAction_state in H as [(P' & [O'|[O'|O']])|I].
    + rewrite P', O'. repeat split; auto. now exists k.
    + rewrite P', O'. repeat split; auto; [lia|]. now exists 0%Z.
    + rewrite P', O', num_or_zero, P. unfold num_or; simpl.
      repeat split; auto; [lia|]. exists (k + 1)%Z. rewrite K, P. lia.
    + rewrite I. simpl. repeat split; [lia|]. now exists 0%Z.
Qed.

(** *** Scoring *)

Lemma fold_left_bonus {A : Type} (p : A -> bool) (c : Z) (l : list A) (a : Z) :
  fold_left (fun acc x => if p x then (acc + c)%Z else acc) l a
  = (a + c * Z.of_nat (List.length (filter p l)))%Z.
Proof.
  revert a; induction l as [|x l IH]; intros a; simpl; [lia|].
  rewrite IH. destruct (p x); simpl List.length; lia.
Qed.

Lemma filter_present (l : list (option jsstring)) :
  map or_empty (filter otruthy l) = filter truthy (map or_empty l).
Proof.
  induction l as [|[s|] l IH]; cbn [filter map otruthy or_empty truthy]; auto.
  destruct (truthy s); cbn [map or_empty]; now rewrite IH.
Qed.

Lemma schemeTextForMatch_fields x : schemeTextForMatch x = textOf (matchFields x).
Proof.
  unfold schemeTextForMatch, textOf, matchFields.
  rewrite filter_present. do 3 f_equal. f_equal.
  rewrite !map_app, !map_map. cbn [or_empty]. now rewrite !map_id.
Qed.

Lemma trimStart_app (a s : jsstring) :
  trimStart (a ++ s) = match trimStart a with [] => trimStart s | b => b ++ s end.
Proof.
  induction a as [|c a IH]; [reflexivity|]. cbn [app trimStart].
  destruct (isWhiteSpace c); [exact IH|reflexivity].
Qed.

(** A space after the text or before it does not survive [trim]. *)
Lemma trim_app_space (a : jsstring) : trim (a ++ [32%N]) = trim a.
Proof.
  unfold trim. rewrite trimStart_app.
  destruct (trimStart a) as [|c b]; [reflexivity|].
  now rewrite rev_app_distr.
Qed.

Lemma trim_space_app (z : jsstring) : trim (32%N :: z) = trim z.
Proof. reflexivity. Qed.

Lemma nameHay_fields x : nameHay x = textOf (nameFields x).
Proof.
  unfold nameHay, textOf, nameFields, normalizeText. do 2 f_equal.
  change (u " ") with [32%N].
  destruct (name_en x) as [[|c a]|], (name_zh x) as [[|c' z]|];
    cbn [map or_empty filter truthy join];
    rewrite ?app_nil_r, ?app_nil_l; cbn [app];
    rewrite ?trim_space_app; try reflexivity;
    try (change (c :: a ++ [32%N]) with ((c :: a) ++ [32%N]); now rewrite trim_app_space).
Qed.

Lemma boosted_hintIs x hint : hint <> Some [] -> boosted x hint = hintIs x hint.
Proof.
  destruct hint as [[|c s]|]; [congruence|reflexivity|reflexivity].
Qed.

Lemma catOf_hintOf dId : catOf (domainById dId) = hintOf dId.
Proof.
  unfold hintOf. destruct (domainById dId) as [d|] eqn:E; [|reflexivity].
  destruct dId as [i|]; [|discriminate]. unfold domainById in E.
  apply find_some in E as [I _].
  assert (A : forallb (fun d => truthy (cat d)) DOMAIN = true) by reflexivity.
  rewrite forallb_forall in A. cbn [catOf option_map]. now rewrite (A d I).
Qed.

Lemma hintOf_not_empty dId : hintOf dId <> Some [].
Proof.
  rewrite <- catOf_hintOf. unfold catOf.
  destruct (domainById dId) as [d|]; [|discriminate].
  destruct (cat d); cbn [truthy]; discriminate.
Qed.

(** C4. For every token list, scheme and domain hint, [scoreScheme] is the
    score the specification states: 3 times the number of query tokens that
    occur as substrings of the normalised lower-cased text of the scheme's
    names, summaries, keywords, eligibility points and how-to-apply steps,
    plus 2 times the number of query tokens that occur as substrings of the
    normalised lower-cased name fields alone, plus 10 when the hint equals
    the scheme's category, plus 2 more when it does and the query has at most
    two tokens.  A hint is null or a category tag; the empty string as hint
    counts as no hint, and [retrieveAllSchemes] never passes it: every score
    it computes is the stated one. *)
Theorem scoreScheme_formula queryTokens x hint :
  (hint <> Some [] ->
   scoreScheme queryTokens x hint = score_as_stated queryTokens x hint)
  /\ (hint = Some [] ->
      scoreScheme queryTokens x hint = score_as_stated queryTokens x None)
  /\ (forall query dId e,
        In e (scoreAll query dId) ->
        score e = score_as_stated (tokenize query) (sch e) (hintOf dId)).
Proof.
  assert (F : forall q y (h : option jsstring),
             h <> Some [] -> scoreScheme q y h = score_as_stated q y h).
  { intros q y h H. unfold scoreScheme, score_as_stated, tokensIn.
    rewrite (boosted_hintIs y h H), !fold_left_bonus.
    rewrite schemeTextForMatch_fields, nameHay_fields.
    destruct (hintIs y h), (List.length q <=? 2)%nat; cbn [andb]; lia. }
  split; [apply F|]. split.
  - intros ->. transitivity (scoreScheme queryTokens x None); [|apply F; discriminate].
    unfold scoreScheme, boosted. cbn [truthy andb]. now rewrite andb_false_r.
  - intros query dId e H. unfold scoreAll in H. apply in_map_iff in H as (y & <- & _).
    cbn [score sch]. rewrite catOf_hintOf. apply F, hintOf_not_empty.
Qed.

(** *** Ranking *)

Section Sorting.

Let cmp (a b : Scored) : Z := (score b - score a)%Z.

Lemma insert_sorted_perm x l : Permutation (insert_sorted cmp x l) (x :: l).
Proof.
  induction l as [|y l IH]; simpl; [reflexivity|].
  destruct (cmp x y >? 0)%Z; [|reflexivity].
  rewrite IH. apply perm_swap.
Qed.

Lemma sort_perm l : Permutation (sort cmp l) l.
Proof.
  induction l as [|x l IH]; simpl; [constructor|].
  rewrite insert_sorted_perm. now constructor.
Qed.

Lemma insert_sorted_sorted x l :
  StronglySorted byScore l -> StronglySorted byScore (insert_sorted cmp x l).
Proof.
  induction 1 as [|y l S IH F]; simpl; [repeat constructor|].
  destruct (cmp x y >? 0)%Z eqn:E; unfold cmp in E.
  - constructor; [exact IH|].
    apply Forall_forall. intros z Hz.
    apply (Permutation_in _ (insert_sorted_perm x l)) in Hz.
    destruct Hz as [<-|Hz]; [unfold byScore; lia|].
    revert z Hz. now apply Forall_forall.
  - constructor; [now constructor|].
    constructor; [unfold byScore; lia|].
    eapply Forall_impl; [|exact F]. unfold byScore. intros z Hz. lia.
Qed.

Lemma sort_sorted l : StronglySorted byScore (sort cmp l).
Proof.
  induction l as [|x l IH]; simpl; [constructor|now apply insert_sorted_sorted].
Qed.

(** Stability: among the entries of one score the order is untouched. *)
Lemma insert_sorted_stable v x l :
  filter (fun e => (score e =? v)%Z) (insert_sorted cmp x l)
  = filter (fun e => (score e =? v)%Z) (x :: l).
Proof.
  induction l as [|y l IH]; [reflexivity|].
  cbn [insert_sorted]. destruct (cmp x y >? 0)%Z eqn:E; [|reflexivity].
  unfold cmp in E. cbn [filter] in *. rewrite IH.
  destruct (score y =? v)%Z eqn:Y, (score x =? v)%Z eqn:X; try reflexivity.
  apply Z.eqb_eq in Y, X. lia.
Qed.

Lemma sort_stable v l :
  filter (fun e => (score e =? v)%Z) (sort cmp l)
  = filter (fun e => (score e =? v)%Z) l.
Proof.
  induction l as [|x l IH]; [reflexivity|].
  cbn [sort fold_right]. rewrite insert_sorted_stable. cbn [filter].
  fold (sort cmp l). now rewrite IH.
Qed.

Lemma filter_sorted (p : Scored -> bool) l :
  StronglySorted byScore l -> StronglySorted byScore (filter p l).
Proof.
  induction 1 as [|y l S IH F]; simpl; [constructor|].
  destruct (p y); [|exact IH].
  constructor; [exact IH|].
  apply Forall_forall. intros z Hz. apply filter_In in Hz as [Hz _].
  revert z Hz. now apply Forall_forall.
Qed.

Lemma filter_comm (p q : Scored -> bool) l :
  filter p (filter q l) = filter q (filter p l).
Proof.
  induction l as [|y l IH]; [reflexivity|]. simpl.
  destruct (q y) eqn:Q, (p y) eqn:P; simpl; rewrite ?Q, ?P, IH; reflexivity.
Qed.

Lemma filter_perm (p : Scored -> bool) l l' :
  Permutation l l' -> Permutation (filter p l) (filter p l').
Proof.
  induction 1; simpl.
  - constructor.
  - destruct (p x); [now constructor|assumption].
  - destruct (p x), (p y); try reflexivity. apply perm_swap.
  - etransitivity; eassumption.
Qed.

(** The first entry of the sorted list has the highest score. *)
Lemma sort_head l :
  match sort cmp l with
  | x :: _ => forall y, In y l -> (score y <= score x)%Z
  | [] => l = []
  end.
Proof.
  pose proof (sort_perm l) as P. pose proof (sort_sorted l) as S.
  destruct (sort cmp l) as [|x t].
  - apply Permutation_nil. now symmetry.
  - intros y Hy. apply (Permutation_in _ (Permutation_sym P)) in Hy.
    inversion S as [|? ? _ F]; subst.
    destruct Hy as [->|Hy]; [lia|].
    revert y Hy. now apply Forall_forall.
Qed.

End Sorting.

Lemma scored_filter (f : Scheme -> Z) (p : Z -> bool) (l : list Scheme) :
  map sch (filter (fun e => p (score e)) (map (fun x => {| sch := x; score := f x |}) l))
  = filter (fun x => p (f x)) l.
Proof.
  induction l as [|x l IH]; [reflexivity|]. cbn [map filter score].
  destruct (p (f x)); cbn [map sch]; now rewrite IH.
Qed.

(** C3. For every query and domain id, [retrieveAllSchemes] returns the first
    50 entries of a list [ranked] that pairs each scheme with its score
    ([scoreScheme] for the tokens of the query and the category of the
    domain that the id names, if any), holds exactly the schemes of the knowledge base whose score is
    strictly positive, in descending score order, the schemes of one score in
    their knowledge-base order; and it reports [lowConfidence] exactly when
    every scheme of the knowledge base scores less than 5. *)
Theorem retrieveAllSchemes_ranked query dId :
  let scoreOf := fun x =>
    scoreScheme (tokenize query) x (option_map cat (domainById dId)) in
  let result := retrieveAllSchemes query dId in
  exists ranked,
    matched result = firstn 50 ranked
    /\ Forall (fun e => score e = scoreOf (sch e)) ranked
    /\ Permutation (map sch ranked)
         (filter (fun x => (scoreOf x >? 0)%Z) (schemes kb))
    /\ StronglySorted byScore ranked
    /\ (forall v, (0 < v)%Z ->
          map sch (filter (fun e => (score e =? v)%Z) ranked)
          = filter (fun x => (scoreOf x =? v)%Z) (schemes kb))
    /\ (lowConfidence result = true
        <-> forall x, In x (schemes kb) -> (scoreOf x < 5)%Z).
Proof.
  intros scoreOf result. subst result. unfold retrieveAllSchemes.
  assert (S : scoreAll query dId
              = map (fun x => {| sch := x; score := scoreOf x |}) (schemes kb))
    by (unfold scoreAll; rewrite catOf_hintOf; reflexivity).
  set (scored := scoreAll query dId) in *.
  set (cmp := fun a b : Scored => (score b - score a)%Z).
  assert (P : Permutation (filter (fun x => (score x >? 0)%Z) (sort cmp scored))
                          (filter (fun x => (score x >? 0)%Z) scored))
    by apply filter_perm, sort_perm.
  exists (filter (fun x => (score x >? 0)%Z) (sort cmp scored)).
  cbn [matched lowConfidence].
  split; [reflexivity|].
  split.
  { apply Forall_forall. intros e He. apply (Permutation_in _ P) in He.
    apply filter_In in He as [He _]. rewrite S in He.
    now apply in_map_iff in He as (y & <- & _). }
  split.
  { apply (Permutation_map sch) in P. rewrite S in P at 2.
    now rewrite (scored_filter scoreOf (fun z => (z >? 0)%Z)) in P. }
  split; [apply filter_sorted, sort_sorted|].
  split.
  - intros v Hv. rewrite filter_comm, sort_stable.
    rewrite <- (scored_filter scoreOf (fun z => (z =? v)%Z)), <- S. f_equal.
    clear -Hv. induction scored as [|y l IH]; [reflexivity|]. cbn [filter].
    destruct (score y =? v)%Z eqn:Y; [|exact IH].
    cbn [filter]. apply Z.eqb_eq in Y.
    replace (score y >? 0)%Z with true by (symmetry; apply Z.gtb_lt; lia).
    now rewrite IH.
  - assert (A : (forall e, In e scored -> (score e < 5)%Z)
                <-> (forall x, In x (schemes kb) -> (scoreOf x < 5)%Z)).
    { rewrite S. split.
      - intros H x Hx.
        apply (H {| sch := x; score := scoreOf x |}), in_map_iff. now exists x.
      - intros H e He. apply in_map_iff in He as (y & <- & Hy). now apply H. }
    rewrite <- A. clear A.
    pose proof (sort_head scored) as H. fold cmp in H.
    destruct (sort cmp scored) as [|x t] eqn:E.
    + rewrite H. split; [intros _ y []|reflexivity].
    + pose proof (sort_perm scored) as Q. fold cmp in Q. rewrite E in Q.
      rewrite Z.ltb_lt. split.
      * intros Hx y Hy. specialize (H y Hy). lia.
      * intros A. apply A. apply (Permutation_in _ Q). now left.
Qed.

(** *** Pagination *)

Lemma firstn_min {A : Type} (l : list A) (n : nat) :
  firstn (Nat.min n (List.length l)) l = firstn n l.
Proof.
  revert n; induction l as [|x l IH]; intros [|n]; simpl; try reflexivity.
  now rewrite IH.
Qed.

Lemma firstn_segment {A : Type} (l : list A) (a b : nat) :
  (a <= b)%nat ->
  firstn a l
  ++ firstn (Nat.min b (List.length l) - Nat.min a (List.length l))
            (skipn (Nat.min a (List.length l)) l)
  = firstn b l.
Proof.
  revert a b; induction l as [|x l IH]; intros a b Hab.
  - rewrite skipn_nil, !firstn_nil. reflexivity.
  - destruct a as [|a]; destruct b as [|b]; try lia; try reflexivity.
    + cbn [List.length Nat.min Nat.sub skipn firstn app].
      now rewrite firstn_min.
    + cbn [List.length Nat.min Nat.sub skipn firstn app].
      f_equal. apply IH. lia.
Qed.

(** The entries before [a] followed by [l.slice(a, b)] are the entries
    before [b]. *)
Lemma slice_extends {A : Type} (l : list A) (a b : Z) :
  (0 <= a <= b)%Z ->
  firstn (Z.to_nat a) l ++ slice l a b = firstn (Z.to_nat b) l.
Proof.
  intros [Ha Hb]. unfold slice.
  replace (a <? 0)%Z with false by (symmetry; apply Z.ltb_ge; lia).
  replace (b <? 0)%Z with false by (symmetry; apply Z.ltb_ge; lia).
  rewrite <- (firstn_segment l (Z.to_nat a) (Z.to_nat b)) by lia.
  f_equal. f_equal; [|f_equal]; lia.
Qed.

Lemma slice_past_end {A : Type} (l : list A) (a b : Z) :
  (Z.of_nat (List.length l) <= a <= b)%Z -> slice l a b = [].
Proof.
  intros H. unfold slice.
  replace (a <? 0)%Z with false by (symmetry; apply Z.ltb_ge; lia).
  replace (b <? 0)%Z with false by (symmetry; apply Z.ltb_ge; lia).
  replace (Z.to_nat _) with O by lia. reflexivity.
Qed.

Lemma slice_nonempty {A : Type} (l : list A) (a b : Z) :
  (0 <= a < Z.of_nat (List.length l))%Z -> (a < b)%Z -> slice l a b <> [].
Proof.
  intros Ha Hb E. apply (f_equal (@List.length A)) in E. unfold slice in E.
  replace (a <? 0)%Z with false in E by (symmetry; apply Z.ltb_ge; lia).
  replace (b <? 0)%Z with false in E by (symmetry; apply Z.ltb_ge; lia).
  rewrite length_firstn, length_skipn in E. simpl in E. lia.
Qed.

(** The slice of the ranked list that [buildResultsMessage] shows at [off]. *)
Lemma buildResultsMessage_cards l dId f query off psize :
  let ranked := matched (retrieveAllSchemes query dId) in
  (0 < Z.of_nat (List.length ranked))%Z -> (0 <= off)%Z -> (0 < psize)%Z ->
  cards (buildResultsMessage l dId f query off psize)
  = map (fun x => formatScheme (sch x) l f) (slice ranked off (off + psize)).
Proof.
  intros ranked T O P. unfold buildResultsMessage. fold ranked.
  replace (Z.of_nat (List.length ranked) =? 0)%Z with false
    by (symmetry; apply Z.eqb_neq; lia).
  destruct (off >=? Z.of_nat (List.length ranked))%Z eqn:E.
  - rewrite slice_past_end by lia. reflexivity.
  - cbn [pageMessage cards]. now rewrite map_map.
Qed.

(** One [MORE_RESULTS] on a state that holds a query. *)
Lemma handleAction_MORE_RESULTS st :
  truthy (lastQuery st) = true -> pageSize st <> 0%Z ->
  handleAction st MORE_RESULTS
  = ret (set_offset (offset st + pageSize st) st)
        (buildResultsMessage (lang st) (domainId st) (focus st) (lastQuery st)
                             (offset st + pageSize st) (pageSize st)).
Proof.
  intros Q P. unfold MORE_RESULTS, handleAction, is_type, act.
  cbn [action_type]. eval_tags. rewrite Q. cbn [negb].
  rewrite num_or_zero. unfold num_or.
  replace (pageSize st =? 0)%Z with false by (symmetry; now apply Z.eqb_neq).
  reflexivity.
Qed.

Lemma morePages_prefix n : forall st,
  truthy (lastQuery st) = true -> (0 < pageSize st)%Z -> (0 <= offset st)%Z ->
  (0 < Z.of_nat (List.length (matched (retrieveAllSchemes (lastQuery st) (domainId st)))))%Z ->
  firstn (Z.to_nat (offset st + pageSize st)) (rankedCards st) ++ List.concat (morePages n st)
  = firstn (Z.to_nat (offset st + pageSize st + Z.of_nat n * pageSize st)) (rankedCards st).
Proof.
  induction n as [|n IH]; intros st Q P O T.
  - cbn [morePages List.concat]. rewrite app_nil_r. f_equal. lia.
  - cbn [morePages]. rewrite handleAction_MORE_RESULTS by (auto; lia).
    unfold ret. cbn [state cardsOf message List.concat].
    rewrite buildResultsMessage_cards by (auto; lia).
    set (st' := set_offset (offset st + pageSize st) st).
    rewrite app_assoc.
    unfold rankedCards at 1. rewrite firstn_map, <- map_app.
    rewrite slice_extends by lia.
    rewrite <- firstn_map. change (map _ _) with (rankedCards st').
    replace (offset st + pageSize st + pageSize st)%Z
      with (offset st' + pageSize st')%Z by reflexivity.
    rewrite (IH st') by (subst st'; cbn [lastQuery pageSize offset set_offset domainId]; auto; lia).
    f_equal. subst st'. cbn [offset pageSize set_offset]. lia.
Qed.

Lemma NoDup_map_filter {A B : Type} (g : A -> B) (p : A -> bool) (l : list A) :
  NoDup (map g l) -> NoDup (map g (filter p l)).
Proof.
  induction l as [|x l IH]; simpl; [auto|]. intros H. inversion H as [|? ? N D]; subst.
  destruct (p x); [|auto]. simpl. constructor; [|auto].
  intros I. apply N. apply in_map_iff in I as (y & E & I).
  apply filter_In in I as [I _]. apply in_map_iff. now exists y.
Qed.

Lemma In_firstn {A : Type} (x : A) (n : nat) (l : list A) :
  In x (firstn n l) -> In x l.
Proof.
  revert n; induction l as [|y l IH]; intros [|n]; simpl; try tauto.
  intros [E|I]; [now left|right; eauto].
Qed.

Lemma NoDup_map_firstn {A B : Type} (g : A -> B) (n : nat) (l : list A) :
  NoDup (map g l) -> NoDup (map g (firstn n l)).
Proof.
  revert n; induction l as [|x l IH]; intros [|n] H; simpl; try constructor.
  - inversion H as [|? ? N D]; subst. intros I. apply N.
    apply in_map_iff in I as (y & E & I). apply in_map_iff. exists y.
    split; [auto|]. eapply In_firstn; eauto.
  - inversion H; subst. now apply IH.
Qed.

(** The ranked list repeats no scheme of a knowledge base with distinct ids. *)
Lemma rankedCards_NoDup st :
  NoDup (map scheme_id (schemes kb)) -> NoDup (map card_id (rankedCards st)).
Proof.
  intros H. unfold rankedCards, retrieveAllSchemes. cbn [matched].
  rewrite map_map. cbn [formatScheme card_id].
  apply NoDup_map_firstn, NoDup_map_filter.
  eapply Permutation_NoDup;
    [apply Permutation_map; symmetry; apply sort_perm|].
  unfold scoreAll. rewrite map_map. exact H.
Qed.

(** C2 (as amended). For a state that holds a non-empty [lastQuery] (with
    a positive [pageSize] and a non-negative [offset]), a MORE_RESULTS action
    advances [offset] by exactly [pageSize] and changes nothing else.  When
    the query has matches, the cards shown so far (the first
    [offset + pageSize] entries of the ranked list) followed by the card pages
    of [n] successive MORE_RESULTS actions are the first
    [offset + pageSize + n * pageSize] entries of the single ranked list
    [retrieveAllSchemes] returns for that query and domain, a list without
    repeats when the knowledge base has distinct ids; once the new offset
    reaches or exceeds the number of matches the message is
    [noMoreResultsMessage], and a results page is never empty.  When the
    query has no match at all the message is the no-match fallback
    [noMatchMessage] with the entry-point cards. *)
Theorem more_results_pagination st n :
  truthy (lastQuery st) = true -> (0 < pageSize st)%Z -> (0 <= offset st)%Z ->
  let p := pageSize st in
  let total := Z.of_nat (List.length (rankedCards st)) in
  let next := set_offset (offset st + p) st in
  exists m,
    handleAction st MORE_RESULTS = Some {| state := next; message := Some m |}
    /\ offset next = (offset st + p)%Z
    /\ ((0 < total)%Z ->
        firstn (Z.to_nat (offset st + p)) (rankedCards st)
        ++ List.concat (morePages n st)
        = firstn (Z.to_nat (offset st + p + Z.of_nat n * p)) (rankedCards st))
    /\ (NoDup (map scheme_id (schemes kb)) -> NoDup (map card_id (rankedCards st)))
    /\ ((0 < total)%Z -> (total <= offset next)%Z ->
        m = noMoreResultsMessage (lang st) (domainId st))
    /\ ((offset next < total)%Z -> cards m <> [])
    /\ (total = 0%Z -> m = noMatchMessage (lang st)).
Proof.
  intros Q P O p total next.
  assert (T : total = Z.of_nat (List.length
                (matched (retrieveAllSchemes (lastQuery st) (domainId st)))))
    by (subst total; unfold rankedCards; now rewrite length_map).
  eexists. split; [apply handleAction_MORE_RESULTS; [exact Q|lia]|].
  split; [reflexivity|].
  split; [intros H; apply morePages_prefix; auto; lia|].
  split; [apply rankedCards_NoDup|].
  fold p. cbn [offset next set_offset] in *.
  split; [|split].
  - intros H1 H2. unfold buildResultsMessage. rewrite <- T.
    replace (total =? 0)%Z with false by (symmetry; apply Z.eqb_neq; lia).
    replace (offset st + p >=? total)%Z with true by (symmetry; apply Z.geb_le; lia).
    reflexivity.
  - intros H. rewrite buildResultsMessage_cards by (fold p; lia).
    intros E. apply map_eq_nil in E. revert E. apply slice_nonempty; lia.
  - intros H. unfold buildResultsMessage. rewrite <- T, H. reflexivity.
Qed.

(** *** Tokens *)

Lemma stripPunct_clean b t : Forall (fun c => isPunct c = false) (stripPunct b t).
Proof.
  revert b; induction t as [|c t IH]; intros b; simpl; [constructor|].
  destruct (isPunct c) eqn:E.
  - destruct b; [apply IH|]. constructor; [|apply IH].
    unfold isPunct. now rewrite orb_true_r.
  - constructor; [exact E|apply IH].
Qed.

Lemma stripPunct_id t : Forall (fun c => isPunct c = false) t -> stripPunct false t = t.
Proof.
  induction 1 as [|c t E _ IH]; simpl; [reflexivity|]. now rewrite E, IH.
Qed.

(** The pieces of a split are made of the characters of the text. *)
Lemma split_from_chars (P : codepoint -> Prop) t : forall cur b,
  Forall P cur -> Forall P t -> Forall (Forall P) (split_from cur b t).
Proof.
  induction t as [|c t IH]; intros cur b C T; simpl.
  - constructor; [now apply Forall_rev|constructor].
  - inversion T; subst. destruct (isWhiteSpace c).
    + destruct b; [apply IH; auto|]. constructor; [now apply Forall_rev|apply IH; auto].
    + apply IH; auto.
Qed.

Lemma split_from_no_space t : forall cur b,
  Forall (fun c => isWhiteSpace c = false) cur ->
  Forall (Forall (fun c => isWhiteSpace c = false)) (split_from cur b t).
Proof.
  induction t as [|c t IH]; intros cur b C; simpl.
  - constructor; [now apply Forall_rev|constructor].
  - destruct (isWhiteSpace c) eqn:E.
    + destruct b; [apply IH; auto|]. constructor; [now apply Forall_rev|apply IH; auto].
    + apply IH; auto.
Qed.

Lemma tokenize_clean raw : Forall cleanToken (tokenize raw).
Proof.
  unfold tokenize. apply Forall_forall. intros w Hw.
  apply filter_In in Hw as [Hw S]. apply filter_In in Hw as [Hw N].
  repeat split.
  - intros ->. discriminate.
  - pose proof (split_from_no_space
                  (stripPunct false (toLowerCase (normalizeText raw))) [] false
                  (Forall_nil _)) as F.
    rewrite Forall_forall in F. now apply F.
  - pose proof (split_from_chars (fun c => isPunct c = false)
                  (stripPunct false (toLowerCase (normalizeText raw))) [] false
                  (Forall_nil _) (stripPunct_clean _ _)) as F.
    rewrite Forall_forall in F. now apply F.
  - now apply negb_true_iff.
Qed.

Lemma split_from_word w t : forall cur,
  Forall (fun c => isWhiteSpace c = false) w ->
  split_from cur false (w ++ t) = split_from (rev w ++ cur) false t.
Proof.
  induction w as [|c w IH]; intros cur F; [reflexivity|].
  inversion F as [|? ? E F']; subst. cbn [app split_from]. rewrite E.
  rewrite IH by assumption. cbn [rev]. now rewrite <- app_assoc.
Qed.

Lemma split_from_start c w t b :
  isWhiteSpace c = false ->
  split_from [] b ((c :: w) ++ t) = split_from [] false ((c :: w) ++ t).
Proof. intros E. cbn [app split_from]. now rewrite E. Qed.

(** Splitting the space-joined tokens gives the tokens back. *)
Lemma split_join ws : forall b,
  ws <> [] -> Forall cleanToken ws -> split_from [] b (join (u " ") ws) = ws.
Proof.
  induction ws as [|w ws IH]; intros b N F; [contradiction|].
  inversion F as [|? ? (Nw & Sw & _) F']; subst.
  destruct w as [|c w]; [contradiction|].
  assert (Ec : isWhiteSpace c = false) by now inversion Sw.
  destruct ws as [|w' ws].
  - cbn [join]. rewrite <- (app_nil_r (c :: w)), (split_from_start c w [] b Ec).
    rewrite split_from_word by assumption.
    cbn [split_from]. now rewrite !app_nil_r, rev_involutive.
  - change (join (u " ") ((c :: w) :: w' :: ws))
      with ((c :: w) ++ 32%N :: join (u " ") (w' :: ws)).
    rewrite (split_from_start c w _ b Ec), split_from_word by assumption.
    cbn [split_from]. change (isWhiteSpace 32%N) with true. cbv iota.
    rewrite app_nil_r, rev_involutive. f_equal. apply IH; [discriminate|assumption].
Qed.

Lemma join_clean ws :
  Forall cleanToken ws -> Forall (fun c => isPunct c = false) (join (u " ") ws).
Proof.
  induction 1 as [|w ws (_ & _ & Pw & _) F IH]; [constructor|].
  destruct ws as [|w' ws]; [exact Pw|].
  change (join (u " ") (w :: w' :: ws)) with (w ++ 32%N :: join (u " ") (w' :: ws)).
  apply Forall_app; split; [exact Pw|]. constructor; [|exact IH].
  unfold isPunct. change (isWhiteSpace 32%N) with true. now rewrite orb_true_r.
Qed.

Lemma filter_all {A : Type} (p : A -> bool) (l : list A) :
  Forall (fun x => p x = true) l -> filter p l = l.
Proof. induction 1 as [|x l E _ IH]; simpl; [reflexivity|]. now rewrite E, IH. Qed.

(** C6 (as amended). For every raw input whose space-joined token list is
    left as it is by the synonym rewriting and by lower-casing, [tokenize]
    applied to that joined list yields the same token list again.  (Without
    the condition a synonym rule can fire on the joined tokens and change
    them.) *)
Theorem tokenize_idempotent_on_fixed raw :
  let joined := join (u " ") (tokenize raw) in
  toLowerCase (normalizeText joined) = joined ->
  tokenize joined = tokenize raw.
Proof.
  intros joined H. pose proof (tokenize_clean raw) as C.
  unfold tokenize at 1. rewrite H. subst joined.
  rewrite stripPunct_id by now apply join_clean.
  assert (S : filter truthy (split_ws (join (u " ") (tokenize raw))) = tokenize raw).
  { unfold split_ws. destruct (tokenize raw) as [|w ws] eqn:E; [reflexivity|].
    rewrite split_join by (auto; discriminate).
    apply filter_all. eapply Forall_impl; [|exact C].
    intros x (Nx & _). now destruct x. }
  rewrite S. apply filter_all. eapply Forall_impl; [|exact C].
  intros x (_ & _ & _ & Sx). now rewrite Sx.
Qed.

(** *** Soft domain detection *)

Lemma leads_step f seen best d :
  leads f seen best ->
  leads f (seen ++ [d])
        (let s := f d in if (s >? snd best)%Z then (Some (dom_id d), s) else best).
Proof.
  intros (Z0 & M & B). cbv zeta. destruct (f d >? snd best)%Z eqn:E.
  - apply Z.gtb_lt in E. repeat split; cbn [fst snd]; [lia| |].
    + intros e He. apply in_app_iff in He as [He|[<-|[]]]; [|lia].
      specialize (M e He). lia.
    + exists seen, d, []. repeat split; try lia; [|intros e []].
      intros e He. specialize (M e He). lia.
  - assert (L : (f d <= snd best)%Z).
    { destruct (Z.gtb_spec (f d) (snd best)); [discriminate|assumption]. }
    repeat split; [exact Z0| |].
    + intros e He. apply in_app_iff in He as [He|[<-|[]]]; auto.
    + destruct (fst best) as [i|]; [|exact B].
      destruct B as (pre & d0 & post & S & I & F & P & Lt & Le).
      exists pre, d0, (post ++ [d]). rewrite S, <- app_assoc. repeat split; auto.
      intros e He. apply in_app_iff in He as [He|[<-|[]]]; [auto|lia].
Qed.

Lemma leads_fold f ds : forall seen best,
  leads f seen best ->
  leads f (seen ++ ds)
        (fold_left (fun best d => let s := f d in
                      if (s >? snd best)%Z then (Some (dom_id d), s) else best) ds best).
Proof.
  induction ds as [|d ds IH]; intros seen best L; cbn [fold_left].
  - now rewrite app_nil_r.
  - replace (seen ++ d :: ds) with ((seen ++ [d]) ++ ds) by now rewrite <- app_assoc.
    apply IH. now apply leads_step.
Qed.

(** C7 (as amended). The soft classifier computes per domain a score of 3
    for each hint phrase of the domain whose normalised, lower-cased form
    [hintForm] is contained in the normalised lower-cased text, plus 1 for
    each token of that text contained in the [hintForm] of some hint phrase,
    plus 1 if the text contains the domain's id; it returns the first domain
    of the highest score when that score is at least 3, and null
    otherwise. *)
Theorem softGuessDomainId_scores raw :
  let t := toLowerCase (normalizeText raw) in
  let tokens := tokenize t in
  let sc := domainScore t tokens in
  (forall d,
     sc d = (3 * Z.of_nat (List.length
                   (filter (fun h => includes t (hintForm h)) (hints_of (dom_id d))))
             + Z.of_nat (List.length
                   (filter (fun tok => existsb (fun h => includes (hintForm h) tok)
                                               (hints_of (dom_id d))) tokens))
             + (if includes t (dom_id d) then 1 else 0))%Z)
  /\ match softGuessDomainId raw with
     | Some i =>
         exists pre d post,
           DOMAIN = pre ++ d :: post /\ dom_id d = i /\ (3 <= sc d)%Z
           /\ (forall e, In e pre -> (sc e < sc d)%Z)
           /\ (forall e, In e post -> (sc e <= sc d)%Z)
     | None => forall d, In d DOMAIN -> (sc d < 3)%Z
     end.
Proof.
  intros t tokens sc. split.
  - intros d. subst sc. unfold domainScore, hintForm. cbv zeta.
    rewrite (fold_left_bonus
               (fun tok => existsb (fun h => includes (toLowerCase (normalizeText h)) tok)
                                   (hints_of (dom_id d))) 1 tokens).
    rewrite (fold_left_bonus (fun h => includes t (toLowerCase (normalizeText h))) 3).
    destruct (includes t (dom_id d)); lia.
  - unfold softGuessDomainId. fold t. fold tokens. fold sc.
    assert (L0 : leads sc [] (None, 0%Z)).
    { repeat split; cbn [fst snd]; [lia|intros e []]. }
    pose proof (leads_fold sc DOMAIN [] (None, 0%Z) L0) as L.
    cbn [app] in L. cbv zeta.
    destruct (fold_left _ DOMAIN (None, 0%Z)) as [r m].
    destruct L as (Z0 & M & B). cbn [fst snd] in *.
    destruct (m >=? 3)%Z eqn:E.
    + apply Z.geb_le in E. destruct r as [i|]; [|lia].
      destruct B as (pre & d & post & S & I & F & P & Lt & Le).
      exists pre, d, post. repeat split; auto. lia.
    + assert (m < 3)%Z by (destruct (Z.geb_spec m 3); [discriminate|lia]).
      intros d Hd. specialize (M d Hd). lia.
Qed.

(** Reachability through a turn whose resulting state is known. *)
Lemma reach_action_to st action st' :
  reachable st -> option_map state (handleAction st action) = Some st' -> reachable st'.
Proof.
  intros R H. destruct (handleAction st action) as [r|] eqn:E; [|discriminate].
  injection H as <-. now apply (reach_action st action r).
Qed.

Lemma reach_text_to st userText st' :
  reachable st -> option_map state (handleUserText st userText) = Some st' -> reachable st'.
Proof.
  intros R H. destruct (handleUserText st userText) as [r|] eqn:E; [|discriminate].
  injection H as <-. now apply (reach_text st userText r).
Qed.

(** *** Domain detection never leaves [DOMAIN] *)

Lemma domainById_In d : In d DOMAIN -> domainById (Some (dom_id d)) <> None.
Proof.
  intros H E. unfold domainById in E.
  apply (find_none _ _ E) in H. now rewrite str_eqb_refl in H.
Qed.

Lemma domainById_id i d : domainById i = Some d -> i = Some (dom_id d) /\ In d DOMAIN.
Proof.
  destruct i as [i|]; [|discriminate]. unfold domainById. intros H.
  apply find_some in H as [I E]. apply str_eqb_eq in E. now subst.
Qed.

Lemma detectDomainIdFromText_valid raw i :
  detectDomainIdFromText raw = Some i -> domainById (Some i) <> None.
Proof.
  unfold detectDomainIdFromText.
  repeat match goal with
  | |- context [if ?c then Some _ else _] => destruct c; [intros [= <-]; vm_compute; discriminate|]
  end.
  discriminate.
Qed.

Lemma softGuessDomainId_valid raw i :
  softGuessDomainId raw = Some i -> domainById (Some i) <> None.
Proof.
  unfold softGuessDomainId. cbv zeta.
  set (sc := domainScore _ _).
  assert (L0 : leads sc [] (None, 0%Z)).
  { repeat split; cbn [fst snd]; [lia|intros e []]. }
  pose proof (leads_fold sc DOMAIN [] (None, 0%Z) L0) as L. cbn [app] in L.
  destruct (fold_left _ DOMAIN (None, 0%Z)) as [r m].
  destruct L as (_ & _ & B). cbn [fst snd] in *.
  destruct (m >=? 3)%Z; [|discriminate]. intros ->.
  destruct B as (pre & d & post & S & <- & _).
  apply domainById_In. rewrite S. apply in_app_iff. right. now left.
Qed.

(** X1. Whatever the text, the hard detector and the soft classifier return
    null or the id of a domain of [DOMAIN]: [domainById] finds the domain of
    every id they return. *)
Theorem detected_domain_known raw i :
  detectDomainIdFromText raw = Some i \/ softGuessDomainId raw = Some i ->
  exists d, domainById (Some i) = Some d /\ dom_id d = i /\ In d DOMAIN.
Proof.
  intros H.
  assert (V : domainById (Some i) <> None)
    by (destruct H; [eapply detectDomainIdFromText_valid|eapply softGuessDomainId_valid]; eauto).
  destruct (domainById (Some i)) as [d|] eqn:E; [|contradiction].
  exists d. apply domainById_id in E as [[= ->] I]. auto.
Qed.

(** X2. [handleUserText] returns for every state and every text: the domain
    it looks up in the [choose_domain] step is always one the classifiers
    returned, so the lookup never yields null. *)
Theorem handleUserText_returns st userText :
  exists r, handleUserText st userText = Some r /\ message r <> None.
Proof.
  unfold handleUserText, ret.
  destruct (ended st); [eexists; split; [reflexivity|discriminate]|].
  destruct (negb (truthy (trim userText))); [eexists; split; [reflexivity|discriminate]|].
  destruct (containsAny (trim userText) SENSITIVE_TRIGGERS);
    [eexists; split; [reflexivity|discriminate]|].
  destruct (containsAny (trim userText) URGENT_TRIGGERS);
    [eexists; split; [reflexivity|discriminate]|].
  destruct (step st); try (eexists; split; [reflexivity|discriminate]).
  destruct (otruthy _) eqn:T; [|eexists; split; [reflexivity|discriminate]].
  match goal with |- context [domainById ?x] =>
    assert (V : domainById x <> None); [|destruct (domainById x); [|contradiction]]
  end.
  - unfold or_else in *.
    destruct (otruthy (detectDomainIdFromText (trim userText))) eqn:H.
    + destruct (detectDomainIdFromText (trim userText)) as [i|] eqn:D; [|discriminate].
      now apply (detectDomainIdFromText_valid (trim userText)).
    + destruct (softGuessDomainId (trim userText)) as [i|] eqn:D; [|discriminate].
      now apply (softGuessDomainId_valid (trim userText)).
  - eexists; split; [reflexivity|discriminate].
Qed.

Lemma handleAction_None st a :
  handleAction st (Some a) = None ->
  is_type a "SET_DOMAIN" = true /\ domainById (action_domainId a) = None.
Proof.
  unfold handleAction, ret.
  destruct (negb (otruthy (action_type a))); [discriminate|].
  destruct (is_type a "RESTART"); [discriminate|].
  destruct (is_type a "END"); [discriminate|].
  destruct (is_type a "ESCALATE"); [discriminate|].
  destruct (is_type a "BACK_TOPICS"); [discriminate|].
  destruct (is_type a "URGENT"); [discriminate|].
  destruct (is_type a "SENSITIVE"); [discriminate|].
  destruct (is_type a "SET_DOMAIN") eqn:S.
  { destruct (domainById (action_domainId a)) eqn:D; [discriminate|]. auto. }
  destruct (is_type a "SET_FOCUS").
  { match goal with |- context [if ?c then _ else _] => destruct c end; discriminate. }
  destruct (is_type a "ADD_QUERY"); [discriminate|].
  destruct (is_type a "MORE_RESULTS"); [|discriminate].
  destruct (negb (truthy (lastQuery st))); discriminate.
Qed.

(** X3. [handleAction] fails in one case only: a SET_DOMAIN whose [domainId]
    is missing or names no domain of [DOMAIN] (the handler reads a field of
    the null domain). *)
Theorem handleAction_fails_iff st action :
  handleAction st action = None
  <-> exists a, action = Some a /\ is_type a "SET_DOMAIN" = true
                /\ domainById (action_domainId a) = None.
Proof.
  split.
  - destruct action as [a|]; [|discriminate].
    intros H. exists a. split; [reflexivity|]. now apply (handleAction_None st).
  - intros (a & -> & S & D). dispatch S. now rewrite D.
Qed.

(** *** Menus *)

Lemma topicQuickReplies_ok l : menuOk (topicQuickReplies l) = true.
Proof. vm_compute. reflexivity. Qed.

Lemma topicQuickReplies_again_ok l :
  menuOk (makeQuickReplies (map as_item (topicQuickReplies l))) = true.
Proof. vm_compute. reflexivity. Qed.

Lemma focusQuickReplies_ok l : menuOk (focusQuickReplies l) = true.
Proof. vm_compute. reflexivity. Qed.

Lemma navItems_ok l : menuOk (makeQuickReplies (navItems l)) = true.
Proof. vm_compute. reflexivity. Qed.

Lemma domainPresets_ok dId l : menuOk (domainPresets dId l) = true.
Proof.
  unfold domainPresets. cbv zeta.
  repeat match goal with
  | |- context [if is_id dId ?i then _ else _] =>
      destruct (is_id dId i); [vm_compute; reflexivity|]
  end.
  vm_compute. reflexivity.
Qed.

Lemma buildResultsMessage_ok l dId f query off psize :
  menuOk (quickReplies (buildResultsMessage l dId f query off psize)) = true.
Proof.
  unfold buildResultsMessage. cbv zeta.
  destruct (_ =? 0)%Z; [vm_compute; reflexivity|].
  destruct (off >=? _)%Z; [vm_compute; reflexivity|].
  unfold pageMessage. cbv zeta. cbn [quickReplies].
  destruct (_ <? _)%Z; vm_compute; reflexivity.
Qed.

Lemma handleUserText_menu st userText r m :
  handleUserText st userText = Some r -> message r = Some m ->
  menuOk (quickReplies m) = true.
Proof.
  unfold handleUserText, ret.
  destruct (ended st);
    [intros [= <-] [= <-]; apply topicQuickReplies_ok|].
  destruct (negb (truthy (trim userText))).
  { intros [= <-] [= <-]. cbn [quickReplies say].
    destruct (step st); auto using topicQuickReplies_ok, domainPresets_ok. }
  destruct (containsAny (trim userText) SENSITIVE_TRIGGERS);
    [intros [= <-] [= <-]; apply topicQuickReplies_ok|].
  destruct (containsAny (trim userText) URGENT_TRIGGERS);
    [intros [= <-] [= <-]; apply topicQuickReplies_again_ok|].
  destruct (step st).
  - destruct (otruthy _).
    + destruct (domainById _); [|discriminate].
      intros [= <-] [= <-]. apply focusQuickReplies_ok.
    + intros [= <-] [= <-]. apply topicQuickReplies_ok.
  - intros [= <-] [= <-]. apply buildResultsMessage_ok.
  - intros [= <-] [= <-]. apply buildResultsMessage_ok.
Qed.

Lemma handleAction_menu st action r m :
  handleAction st action = Some r -> message r = Some m ->
  menuOk (quickReplies m) = true.
Proof.
  unfold handleAction, ret.
  destruct action as [a|]; [|intros [= <-]; discriminate].
  destruct (negb (otruthy (action_type a))); [intros [= <-]; discriminate|].
  destruct (is_type a "RESTART"); [intros [= <-] [= <-]; apply topicQuickReplies_ok|].
  destruct (is_type a "END"); [intros [= <-] [= <-]; vm_compute; reflexivity|].
  destruct (is_type a "ESCALATE"); [intros [= <-] [= <-]; apply navItems_ok|].
  destruct (is_type a "BACK_TOPICS"); [intros [= <-] [= <-]; apply topicQuickReplies_ok|].
  destruct (is_type a "URGENT"); [intros [= <-] [= <-]; apply topicQuickReplies_again_ok|].
  destruct (is_type a "SENSITIVE"); [intros [= <-] [= <-]; apply topicQuickReplies_ok|].
  destruct (is_type a "SET_DOMAIN").
  { destruct (domainById _); [|discriminate].
    intros [= <-] [= <-]. apply focusQuickReplies_ok. }
  destruct (is_type a "SET_FOCUS").
  { match goal with |- context [if ?c then _ else _] => destruct c end;
      intros [= <-] [= <-]; [apply buildResultsMessage_ok|apply domainPresets_ok]. }
  destruct (is_type a "ADD_QUERY"); [intros [= <-] [= <-]; apply buildResultsMessage_ok|].
  destruct (is_type a "MORE_RESULTS"); [|intros [= <-]; discriminate].
  destruct (negb (truthy (lastQuery st))); intros [= <-] [= <-];
    [apply domainPresets_ok|apply buildResultsMessage_ok].
Qed.

Lemma distinct_NoDup l : distinct l = true -> NoDup l.
Proof.
  induction l as [|x l IH]; simpl; [constructor|].
  intros H. apply andb_true_iff in H as [N D]. constructor; [|auto].
  intros I. apply negb_true_iff in N.
  pose proof (existsb_false_In _ _ x N I) as F. rewrite str_eqb_refl in F.
  discriminate.
Qed.

Lemma acceptable_accepted a st :
  acceptable a = true ->
  recognized (Some a) = true /\ handleAction st (Some a) <> None.
Proof.
  unfold acceptable. intros H. apply andb_true_iff in H as [R D].
  split; [exact R|]. intros N. apply handleAction_None in N as [S E].
  rewrite S, E in D. discriminate.
Qed.

(** X4. Every message the engine emits (the initial one and every message
    [handleUserText] or [handleAction] returns) carries a quick-reply menu
    that is not empty, whose ids are pairwise distinct, and each of whose
    actions is one [handleAction] recognises and handles, in any state,
    without failing. *)
Theorem emitted_menu_is_usable m :
  emitted m ->
  quickReplies m <> []
  /\ NoDup (map qr_id (quickReplies m))
  /\ forall q, In q (quickReplies m) ->
       recognized (Some (action q)) = true
       /\ forall st, handleAction st (Some (action q)) <> None.
Proof.
  intros E.
  assert (M : menuOk (quickReplies m) = true).
  { destruct E as [l | st userText r m H1 H2 | st action r m H1 H2].
    - apply topicQuickReplies_ok.
    - eapply handleUserText_menu; eauto.
    - eapply handleAction_menu; eauto. }
  unfold menuOk in M. apply andb_true_iff in M as [M A].
  apply andb_true_iff in M as [N D].
  split; [intros Z; rewrite Z in N; discriminate|].
  split; [now apply distinct_NoDup|].
  intros q I. rewrite forallb_forall in A. specialize (A q I).
  split; [now apply (acceptable_accepted (action q) (initDialogState []))|].
  intros st. now apply (acceptable_accepted (action q) st).
Qed.

(** *** The shape of reachable states *)

Ltac shape :=
  unfold wellShaped in *;
  cbn [state toTopics set_offset set_lastQuery set_domainId set_step set_focus
       set_ended initDialogState lang step domainId focus lastQuery offset
       pageSize ended] in *;
  intuition (try discriminate; try congruence; try lia).

Lemma handleUserText_shape st userText r :
  wellShaped st -> handleUserText st userText = Some r -> wellShaped (state r).
Proof.
  intros W. unfold handleUserText, ret.
  destruct (ended st); [intros [= <-]; shape|].
  destruct (negb (truthy (trim userText))); [intros [= <-]; shape|].
  destruct (containsAny (trim userText) SENSITIVE_TRIGGERS); [intros [= <-]; shape|].
  destruct (containsAny (trim userText) URGENT_TRIGGERS); [intros [= <-]; shape|].
  destruct (step st) eqn:S.
  - destruct (otruthy _).
    + destruct (domainById _) eqn:D; [|discriminate]. intros [= <-]. shape.
    + intros [= <-]. shape.
  - intros [= <-]. shape.
  - intros [= <-]. shape.
Qed.

Lemma handleAction_shape st action r :
  wellShaped st -> handleAction st action = Some r -> wellShaped (state r).
Proof.
  intros W. unfold handleAction, ret.
  destruct action as [a|]; [|intros [= <-]; shape].
  destruct (negb (otruthy (action_type a))); [intros [= <-]; shape|].
  destruct (is_type a "RESTART"); [intros [= <-]; shape|].
  destruct (is_type a "END"); [intros [= <-]; shape|].
  destruct (is_type a "ESCALATE"); [intros [= <-]; shape|].
  destruct (is_type a "BACK_TOPICS"); [intros [= <-]; shape|].
  destruct (is_type a "URGENT"); [intros [= <-]; shape|].
  destruct (is_type a "SENSITIVE"); [intros [= <-]; shape|].
  destruct (is_type a "SET_DOMAIN").
  { destruct (domainById _) eqn:D; [|discriminate]. intros [= <-]. shape. }
  destruct (is_type a "SET_FOCUS").
  { match goal with |- context [if ?c then _ else _] => destruct c end;
      intros [= <-]; shape. }
  destruct (is_type a "ADD_QUERY"); [intros [= <-]; shape|].
  destruct (is_type a "MORE_RESULTS"); [|intros [= <-]; shape].
  destruct (truthy (lastQuery st)) eqn:Q; cbn [negb]; intros [= <-]; [|shape].
  assert (N : lastQuery st <> []) by (intros E; rewrite E in Q; discriminate).
  destruct (step st) eqn:S; shape.
Qed.

(** X5. Every reachable state has the shape of its step: in [choose_domain]
    no domain and no query are held and the offset is 0; in [choose_focus] a
    domain of [DOMAIN] is held, no query, and the offset is 0; a [domainId]
    that is held always names a domain of [DOMAIN]; and the offset is off 0
    only in [refine_and_show] over a non-empty query. *)
Theorem reachable_wellShaped st : reachable st -> wellShaped st.
Proof.
  induction 1 as [l | st userText r _ IH H | st action r _ IH H].
  - shape.
  - eapply handleUserText_shape; eauto.
  - eapply handleAction_shape; eauto.
Qed.

(** *** Free text: urgent input, blank input, ended session *)

Lemma urgent_not_empty : containsAny [] URGENT_TRIGGERS = false.
Proof. reflexivity. Qed.

(** X6. For a session that is not ended and an input that matches no
    sensitive trigger but an urgent one, [handleUserText] resets the state to
    [choose_domain] (domain, query and offset cleared, everything else kept)
    and answers with [urgentMessage], whose cards are the entry points of the
    knowledge base, one card each, in their order. *)
Theorem urgent_text_resets st userText :
  ended st = false ->
  containsAny (trim userText) SENSITIVE_TRIGGERS = false ->
  containsAny (trim userText) URGENT_TRIGGERS = true ->
  handleUserText st userText
  = Some {| state := toTopics st; message := Some (urgentMessage (lang st)) |}
  /\ map card_id (cards (urgentMessage (lang st))) = map ep_id (entry_points kb)
  /\ Forall (fun c => card_focus c = u "entry") (cards (urgentMessage (lang st))).
Proof.
  intros E S G. split; [|split].
  - unfold handleUserText, ret. rewrite E.
    destruct (trim userText) as [|c raw];
      [rewrite urgent_not_empty in G; discriminate|].
    cbn [truthy negb]. now rewrite S, G.
  - cbn [urgentMessage cards]. unfold entryPointsCards. now rewrite map_map.
  - cbn [urgentMessage cards]. unfold entryPointsCards.
    apply Forall_forall. intros c I. apply in_map_iff in I as (ep & <- & _).
    reflexivity.
Qed.

Lemma trimStart_blank s :
  Forall (fun c => isWhiteSpace c = true) s -> trimStart s = [].
Proof. induction 1 as [|c s E _ IH]; simpl; [reflexivity|]. now rewrite E. Qed.

Lemma trim_blank s : Forall (fun c => isWhiteSpace c = true) s -> trim s = [].
Proof. intros H. unfold trim. now rewrite (trimStart_blank s H). Qed.

(** X7. For a session that is not ended, an empty or white-space-only input
    leaves the state unchanged and is answered by a prompt without cards,
    with the topic menu in [choose_domain] and the presets of the state's
    domain in the other steps. *)
Theorem blank_text_prompts st userText :
  ended st = false ->
  Forall (fun c => isWhiteSpace c = true) userText ->
  exists m,
    handleUserText st userText = Some {| state := st; message := Some m |}
    /\ cards m = []
    /\ quickReplies m = match step st with
                        | choose_domain => topicQuickReplies (lang st)
                        | _ => domainPresets (domainId st) (lang st)
                        end.
Proof.
  intros E B. unfold handleUserText, ret. rewrite E, (trim_blank _ B).
  cbn [truthy negb]. eexists. split; [reflexivity|]. split; reflexivity.
Qed.

(** X8. END only raises the [ended] flag; whatever text follows (also one
    that would match a trigger or name a domain) starts the session afresh:
    the state is [initDialogState] in the same language, with the topic menu
    and no cards. *)
Theorem end_then_any_text_restarts st a userText :
  is_type a "END" = true ->
  exists r1 r2,
    handleAction st (Some a) = Some r1 /\ state r1 = set_ended true st
    /\ handleUserText (state r1) userText = Some r2
    /\ state r2 = initDialogState (lang st)
    /\ cardsOf (Some r2) = []
    /\ option_map quickReplies (message r2) = Some (topicQuickReplies (lang st)).
Proof.
  intros H. dispatch H. eexists. eexists.
  split; [reflexivity|]. split; [reflexivity|].
  unfold handleUserText, ret. cbn [state set_ended ended lang].
  split; [reflexivity|]. repeat split.
Qed.

(** *** Focus, query and language *)

Lemma slice_from_start {A : Type} (l : list A) (b : Z) :
  (0 <= b)%Z -> slice l 0 b = firstn (Z.to_nat b) l.
Proof. intros H. rewrite <- (slice_extends l 0 b) by lia. reflexivity. Qed.

(** X9. SET_FOCUS on a state that shows results for a query sets the focus
    (overview when the action names none), puts the offset back to 0 whatever
    it was, and, when the query has matches, shows page one again: the first
    [pageSize] entries of the ranked list, every card under the new focus. *)
Theorem set_focus_shows_page_one st a :
  is_type a "SET_FOCUS" = true ->
  step st = refine_and_show -> truthy (lastQuery st) = true -> (0 < pageSize st)%Z ->
  let f := or_empty (or_else (action_focus a) (Some (u "overview"))) in
  let ranked := matched (retrieveAllSchemes (lastQuery st) (domainId st)) in
  exists m,
    handleAction st (Some a)
    = Some {| state := set_offset 0 (set_focus f st); message := Some m |}
    /\ (ranked <> [] ->
        cards m = map (fun x => formatScheme (sch x) (lang st) f)
                      (firstn (Z.to_nat (pageSize st)) ranked)
        /\ cards m <> []
        /\ Forall (fun c => card_focus c = f) (cards m)).
Proof.
  intros H S Q P f ranked. dispatch H. unfold ret.
  cbn [step set_offset set_focus lastQuery domainId focus offset pageSize].
  rewrite S, Q. eexists. split; [reflexivity|]. intros N.
  fold f. subst ranked.
  remember (matched (retrieveAllSchemes (lastQuery st) (domainId st))) as ranked eqn:R.
  assert (T : (0 < Z.of_nat (List.length ranked))%Z)
    by (destruct ranked; [contradiction|simpl; lia]).
  rewrite buildResultsMessage_cards by (rewrite <- ?R; auto; lia).
  rewrite <- R, slice_from_start, Z.add_0_l by lia. split; [reflexivity|]. split.
  - destruct ranked as [|x t]; [contradiction|].
    destruct (Z.to_nat (pageSize st)) eqn:E; [lia|]. cbn [firstn map]. discriminate.
  - apply Forall_forall. intros c I. apply in_map_iff in I as (x & <- & _).
    reflexivity.
Qed.

(** X10. A free-text query replaces the query held, an ADD_QUERY action
    appends to it: after text (no ended session, no trigger, not in
    [choose_domain]) [lastQuery] is the trimmed text; after ADD_QUERY it is
    the old query, a space and the trimmed addition (the addition alone when
    no query was held).  Both go to [refine_and_show] with the offset at 0 and
    answer with the results for the new query. *)
Theorem query_replaced_or_appended st :
  (forall userText,
     ended st = false -> trim userText <> [] ->
     containsAny (trim userText) SENSITIVE_TRIGGERS = false ->
     containsAny (trim userText) URGENT_TRIGGERS = false ->
     step st <> choose_domain ->
     let next := set_offset 0 (set_lastQuery (trim userText) (set_step refine_and_show st)) in
     handleUserText st userText
     = Some {| state := next;
               message := Some (buildResultsMessage (lang st) (domainId st) (focus st)
                                  (trim userText) 0 (pageSize st)) |})
  /\ (forall a,
        is_type a "ADD_QUERY" = true ->
        let added := trim (or_empty (action_text a)) in
        let q := if truthy (lastQuery st)
                 then trim (lastQuery st ++ u " " ++ added) else added in
        let next := set_offset 0 (set_lastQuery q (set_step refine_and_show st)) in
        handleAction st (Some a)
        = Some {| state := next;
                  message := Some (buildResultsMessage (lang st) (domainId st) (focus st)
                                     q 0 (pageSize st)) |}).
Proof.
  split.
  - intros userText E N S G C next. unfold handleUserText, ret.
    rewrite E, S, G. destruct (trim userText) as [|c raw] eqn:R; [contradiction|].
    cbn [truthy negb]. destruct (step st); [contradiction| |]; reflexivity.
  - intros a H added q next. dispatch H. reflexivity.
Qed.

(** X11. MORE_RESULTS on a state that holds no query changes nothing (the
    offset does not move) and answers with a prompt without cards and the
    presets of the state's domain. *)
Theorem more_results_without_query st a :
  is_type a "MORE_RESULTS" = true -> lastQuery st = [] ->
  exists m,
    handleAction st (Some a) = Some {| state := st; message := Some m |}
    /\ cards m = [] /\ quickReplies m = domainPresets (domainId st) (lang st).
Proof.
  intros H Q. dispatch H. rewrite Q. cbn [truthy negb]. unfold ret.
  eexists. split; [reflexivity|]. split; reflexivity.
Qed.

Lemma handleUserText_lang st userText r :
  handleUserText st userText = Some r -> lang (state r) = lang st.
Proof.
  unfold handleUserText, ret.
  destruct (ended st); [intros [= <-]; reflexivity|].
  destruct (negb (truthy (trim userText))); [intros [= <-]; reflexivity|].
  destruct (containsAny (trim userText) SENSITIVE_TRIGGERS); [intros [= <-]; reflexivity|].
  destruct (containsAny (trim userText) URGENT_TRIGGERS); [intros [= <-]; reflexivity|].
  destruct (step st).
  - destruct (otruthy _).
    + destruct (domainById _); [|discriminate]. intros [= <-]; reflexivity.
    + intros [= <-]; reflexivity.
  - intros [= <-]; reflexivity.
  - intros [= <-]; reflexivity.
Qed.

Lemma handleAction_lang st action r :
  handleAction st action = Some r -> lang (state r) = lang st.
Proof.
  unfold handleAction, ret.
  destruct action as [a|]; [|intros [= <-]; reflexivity].
  destruct (negb (otruthy (action_type a))); [intros [= <-]; reflexivity|].
  destruct (is_type a "RESTART"); [intros [= <-]; reflexivity|].
  destruct (is_type a "END"); [intros [= <-]; reflexivity|].
  destruct (is_type a "ESCALATE"); [intros [= <-]; reflexivity|].
  destruct (is_type a "BACK_TOPICS"); [intros [= <-]; reflexivity|].
  destruct (is_type a "URGENT"); [intros [= <-]; reflexivity|].
  destruct (is_type a "SENSITIVE"); [intros [= <-]; reflexivity|].
  destruct (is_type a "SET_DOMAIN").
  { destruct (domainById _); [|discriminate]. intros [= <-]; reflexivity. }
  destruct (is_type a "SET_FOCUS").
  { match goal with |- context [if ?c then _ else _] => destruct c end;
      intros [= <-]; reflexivity. }
  destruct (is_type a "ADD_QUERY"); [intros [= <-]; reflexivity|].
  destruct (is_type a "MORE_RESULTS"); [|intros [= <-]; reflexivity].
  destruct (negb (truthy (lastQuery st))); intros [= <-]; reflexivity.
Qed.

(** X12. No turn changes the language of the conversation: the state that
    [handleUserText] or [handleAction] returns has the [lang] of the state it
    was given (also when the session is restarted or revived). *)
Theorem language_is_kept st r :
  (exists userText, handleUserText st userText = Some r)
  \/ (exists action, handleAction st action = Some r) ->
  lang (state r) = lang st.
Proof.
  intros [(userText & H)|(action & H)];
    [eapply handleUserText_lang|eapply handleAction_lang]; eauto.
Qed.

(** *** Scores and retrieval *)

Lemma scoreScheme_closed queryTokens x hint :
  scoreScheme queryTokens x hint
  = (3 * tokensIn (schemeTextForMatch x) queryTokens
     + 2 * tokensIn (nameHay x) queryTokens
     + (if boosted x hint then 10 else 0)
     + (if (List.length queryTokens <=? 2)%nat && boosted x hint then 2 else 0))%Z.
Proof.
  unfold scoreScheme, tokensIn. rewrite !fold_left_bonus.
  destruct (boosted x hint), (List.length queryTokens <=? 2)%nat; cbn [andb]; lia.
Qed.

Lemma tokensIn_bounds hay l :
  (0 <= tokensIn hay l <= Z.of_nat (List.length l))%Z.
Proof.
  unfold tokensIn. pose proof (filter_length_le (includes hay) l). lia.
Qed.

Lemma tokensIn_app hay l tok :
  tokensIn hay (l ++ [tok])
  = (tokensIn hay l + if includes hay tok then 1 else 0)%Z.
Proof.
  unfold tokensIn. rewrite filter_app, length_app. cbn [filter].
  destruct (includes hay tok); cbn [List.length]; lia.
Qed.

(** X13. A score is never negative and at most 5 per query token plus 12.
    Appending a token to the query lowers a scheme's score by at most 2 (the
    short-query bonus can lapse), and a token that occurs in the scheme's
    match text always raises it. *)
Theorem scoreScheme_bounds_and_growth queryTokens x hint tok :
  (0 <= scoreScheme queryTokens x hint
   <= 5 * Z.of_nat (List.length queryTokens) + 12)%Z
  /\ (scoreScheme queryTokens x hint - 2 <= scoreScheme (queryTokens ++ [tok]) x hint)%Z
  /\ (includes (schemeTextForMatch x) tok = true ->
      (scoreScheme queryTokens x hint < scoreScheme (queryTokens ++ [tok]) x hint)%Z).
Proof.
  rewrite !scoreScheme_closed, !tokensIn_app, length_app.
  pose proof (tokensIn_bounds (schemeTextForMatch x) queryTokens).
  pose proof (tokensIn_bounds (nameHay x) queryTokens).
  cbn [List.length].
  destruct (boosted x hint), (List.length queryTokens <=? 2)%nat,
    (List.length queryTokens + 1 <=? 2)%nat,
    (includes (nameHay x) tok), (includes (schemeTextForMatch x) tok);
    cbn [andb]; repeat split; intros; try discriminate; lia.
Qed.

Lemma DOMAIN_cats d : In d DOMAIN -> truthy (cat d) = true.
Proof.
  assert (A : forallb (fun d => truthy (cat d)) DOMAIN = true) by reflexivity.
  rewrite forallb_forall in A. apply A.
Qed.

Lemma firstn_nonempty {A : Type} (n : nat) (l : list A) :
  l <> [] -> (0 < n)%nat -> firstn n l <> [].
Proof. destruct l, n; simpl; intros; try lia; congruence. Qed.

(** X14. When the state's domain is a domain of [DOMAIN] and the knowledge
    base has a scheme of that domain's category, the scheme scores at least
    10 whatever the query, so the retrieval is never empty and never of low
    confidence. *)
Theorem domain_scheme_always_matches query dId d x :
  domainById dId = Some d -> In x (schemes kb) -> category x = cat d ->
  (10 <= scoreScheme (tokenize query) x (Some (cat d)))%Z
  /\ In {| sch := x; score := scoreScheme (tokenize query) x (Some (cat d)) |}
        (scoreAll query dId)
  /\ matched (retrieveAllSchemes query dId) <> []
  /\ lowConfidence (retrieveAllSchemes query dId) = false.
Proof.
  intros D I C.
  assert (Td : truthy (cat d) = true)
    by (apply DOMAIN_cats; now apply (domainById_id dId d)).
  assert (B : boosted x (Some (cat d)) = true)
    by (unfold boosted; rewrite Td, C; apply str_eqb_refl).
  assert (S10 : (10 <= scoreScheme (tokenize query) x (Some (cat d)))%Z).
  { rewrite scoreScheme_closed, B.
    pose proof (tokensIn_bounds (schemeTextForMatch x) (tokenize query)).
    pose proof (tokensIn_bounds (nameHay x) (tokenize query)).
    destruct (_ && true); lia. }
  set (e := {| sch := x; score := scoreScheme (tokenize query) x (Some (cat d)) |}).
  assert (Ie : In e (scoreAll query dId)).
  { unfold scoreAll. rewrite D. unfold catOf. rewrite Td.
    apply in_map_iff. now exists x. }
  split; [exact S10|]. split; [exact Ie|].
  unfold retrieveAllSchemes. cbn [matched lowConfidence].
  set (cmp := fun a b : Scored => (score b - score a)%Z).
  pose proof (sort_perm (scoreAll query dId)) as P. fold cmp in P.
  pose proof (sort_head (scoreAll query dId)) as Hd. fold cmp in Hd.
  split.
  - apply firstn_nonempty; [|unfold MAX_MATCHES_CAP; lia].
    intros E.
    assert (F : In e (filter (fun y => (score y >? 0)%Z) (sort cmp (scoreAll query dId)))).
    { apply filter_In. split; [apply (Permutation_in _ (Permutation_sym P) Ie)|].
      apply Z.gtb_lt. cbn [score e]. lia. }
    rewrite E in F. destruct F.
  - destruct (sort cmp (scoreAll query dId)) as [|y t].
    + rewrite Hd in Ie. destruct Ie.
    + specialize (Hd e Ie). cbn [score e] in Hd. apply Z.ltb_ge. lia.
Qed.

Lemma filter_none {A : Type} (p : A -> bool) (l : list A) :
  (forall y, In y l -> p y = false) -> filter p l = [].
Proof.
  induction l as [|y l IH]; intros H; [reflexivity|]. cbn [filter].
  rewrite (H y) by now left. apply IH. intros z Hz. apply H. now right.
Qed.

(** X15. A query that tokenises to nothing (empty, or made of stopwords and
    punctuation only) in a state without a domain of [DOMAIN] matches no
    scheme: the retrieval is empty with best score 0 and low confidence, and
    the message is the no-match fallback with the entry-point cards, whatever
    the offset. *)
Theorem empty_query_matches_nothing query dId :
  tokenize query = [] -> domainById dId = None ->
  matched (retrieveAllSchemes query dId) = []
  /\ bestScore (retrieveAllSchemes query dId) = 0%Z
  /\ lowConfidence (retrieveAllSchemes query dId) = true
  /\ forall l f off psize,
       buildResultsMessage l dId f query off psize = noMatchMessage l.
Proof.
  intros T D.
  assert (Z0 : forall e, In e (scoreAll query dId) -> score e = 0%Z).
  { intros e I. unfold scoreAll in I. rewrite T, D in I.
    apply in_map_iff in I as (x & <- & _). reflexivity. }
  set (cmp := fun a b : Scored => (score b - score a)%Z).
  pose proof (sort_perm (scoreAll query dId)) as P. fold cmp in P.
  assert (S0 : forall e, In e (sort cmp (scoreAll query dId)) -> score e = 0%Z)
    by (intros e I; apply Z0, (Permutation_in _ P I)).
  assert (M : matched (retrieveAllSchemes query dId) = []).
  { unfold retrieveAllSchemes. cbn [matched]. fold cmp. rewrite filter_none; [now destruct MAX_MATCHES_CAP|].
    intros y I. rewrite (S0 y I). reflexivity. }
  assert (B : bestScore (retrieveAllSchemes query dId) = 0%Z).
  { unfold retrieveAllSchemes. cbn [bestScore]. fold cmp.
    destruct (sort cmp (scoreAll query dId)) as [|y t]; [reflexivity|].
    apply S0. now left. }
  split; [exact M|]. split; [exact B|]. split.
  - unfold retrieveAllSchemes in *. cbn [lowConfidence bestScore] in *. now rewrite B.
  - intros l f off psize. unfold buildResultsMessage. cbv zeta. now rewrite M.
Qed.

(** *** Result pages *)

Lemma slice_length {A : Type} (l : list A) (a b : Z) :
  (0 <= a <= b)%Z -> (List.length (slice l a b) <= Z.to_nat (b - a))%nat.
Proof.
  intros H. unfold slice.
  replace (a <? 0)%Z with false by (symmetry; apply Z.ltb_ge; lia).
  replace (b <? 0)%Z with false by (symmetry; apply Z.ltb_ge; lia).
  rewrite length_firstn. lia.
Qed.

(** X16. A results message shows at most [pageSize] cards, and (for a
    non-negative offset and a positive page size) any message of
    [buildResultsMessage] offers the MORE_RESULTS quick reply exactly when
    entries of the ranked list remain beyond the page. *)
Theorem results_page_and_more l dId f query off psize :
  (0 <= off)%Z -> (0 < psize)%Z ->
  let m := buildResultsMessage l dId f query off psize in
  let total := Z.of_nat (List.length (matched (retrieveAllSchemes query dId))) in
  ((0 < total)%Z -> (List.length (cards m) <= Z.to_nat psize)%nat)
  /\ existsb (fun q => is_type (action q) "MORE_RESULTS") (quickReplies m)
     = (off + psize <? total)%Z.
Proof.
  intros O P m total. split.
  - intros T. subst m. rewrite buildResultsMessage_cards by (auto; lia).
    rewrite length_map.
    pose proof (slice_length (matched (retrieveAllSchemes query dId)) off (off + psize)).
    replace (off + psize - off)%Z with psize in * by lia. lia.
  - subst m. unfold buildResultsMessage. cbv zeta. fold total.
    destruct (total =? 0)%Z eqn:E0.
    + apply Z.eqb_eq in E0.
      replace (off + psize <? total)%Z with false by (symmetry; apply Z.ltb_ge; lia).
      vm_compute. reflexivity.
    + destruct (off >=? total)%Z eqn:E1.
      * replace (off + psize <? total)%Z with false
          by (symmetry; apply Z.ltb_ge; apply Z.geb_le in E1; lia).
        vm_compute. reflexivity.
      * unfold pageMessage. cbv zeta. cbn [quickReplies].
        destruct (off + psize <? total)%Z; vm_compute; reflexivity.
Qed.

(** *** Tokens *)

(** X17. Every token [tokenize] returns is non-empty, consists of letters and
    digits only (no white space, no punctuation), and is no stopword. *)
Theorem tokenize_tokens raw w :
  In w (tokenize raw) ->
  w <> [] /\ Forall (fun c => isLetter c || isNumber c = true) w
  /\ STOPWORDS_has w = false.
Proof.
  intros I. pose proof (tokenize_clean raw) as C.
  rewrite Forall_forall in C. destruct (C w I) as (N & S & P & St).
  split; [exact N|]. split; [|exact St].
  rewrite Forall_forall in *. intros c Ic.
  specialize (S c Ic). specialize (P c Ic). unfold isPunct in P.
  rewrite S, orb_false_r in P. now apply negb_false_iff in P.
Qed.

(** *** The guided flow *)

(** X18. From any state, choosing a domain of [DOMAIN], then a focus, then
    typing a query (not blank, matching no trigger) leads through
    [choose_focus] and [refine_and_show] to a state that holds exactly that
    domain, that focus and the trimmed query, at offset 0 and not ended, and
    the answer is the results message for them. *)
Theorem guided_flow st d f userText :
  domainById (Some d) <> None -> f <> [] -> trim userText <> [] ->
  containsAny (trim userText) SENSITIVE_TRIGGERS = false ->
  containsAny (trim userText) URGENT_TRIGGERS = false ->
  exists r1 r2 r3,
    handleAction st (Some (act_SET_DOMAIN d)) = Some r1
    /\ step (state r1) = choose_focus
    /\ handleAction (state r1)
         (Some {| action_type := Some (u "SET_FOCUS"); action_domainId := None;
                  action_focus := Some f; action_text := None |}) = Some r2
    /\ step (state r2) = refine_and_show /\ cardsOf (Some r2) = []
    /\ handleUserText (state r2) userText = Some r3
    /\ state r3 = {| lang := lang st; step := refine_and_show; domainId := Some d;
                     focus := f; lastQuery := trim userText; offset := 0;
                     pageSize := pageSize st; ended := false |}
    /\ message r3 = Some (buildResultsMessage (lang st) (Some d) f (trim userText)
                                              0 (pageSize st)).
Proof.
  intros D F N S G.
  destruct (domainById (Some d)) as [dom|] eqn:Dd; [|contradiction].
  destruct f as [|c0 f0]; [contradiction|].
  destruct (trim userText) as [|c raw] eqn:R; [contradiction|].
  unfold handleAction at 1. unfold is_type, act_SET_DOMAIN.
  cbn [action_type action_domainId]. eval_tags. rewrite Dd.
  unfold ret. eexists. eexists. eexists.
  split; [reflexivity|]. cbn [state]. split; [reflexivity|].
  unfold handleAction, is_type. cbn [action_type action_focus]. eval_tags.
  cbn [step set_ended set_offset set_lastQuery set_domainId set_step set_focus
       lastQuery truthy].
  unfold ret. split; [reflexivity|]. cbn [state]. split; [reflexivity|].
  split; [reflexivity|].
  unfold handleUserText, ret.
  cbn [ended step set_ended set_offset set_lastQuery set_domainId set_step set_focus].
  rewrite R, S, G. cbn [truthy negb]. split; [reflexivity|].
  split; reflexivity.
Qed.

(** *** Trigger texts and their buttons; domain detection; cards *)

Lemma toTopics_live st : ended st = false -> set_ended false (toTopics st) = toTopics st.
Proof. destruct st; cbn. now intros ->. Qed.

(** X19. On a session that is not ended, a text that matches a sensitive
    trigger has exactly the effect of the SENSITIVE action, and a text that
    matches an urgent trigger (and no sensitive one) exactly the effect of the
    URGENT action: same state, same message. *)
Theorem trigger_text_equals_button st userText :
  ended st = false ->
  (containsAny (trim userText) SENSITIVE_TRIGGERS = true ->
   handleUserText st userText = handleAction st (Some (act "SENSITIVE")))
  /\ (containsAny (trim userText) SENSITIVE_TRIGGERS = false ->
      containsAny (trim userText) URGENT_TRIGGERS = true ->
      handleUserText st userText = handleAction st (Some (act "URGENT"))).
Proof.
  intros E. split.
  - intros S. unfold handleUserText, handleAction, is_type, act, ret.
    cbn [action_type]. eval_tags. rewrite E, (toTopics_live st E).
    destruct (trim userText) as [|c raw];
      [rewrite sensitive_not_empty in S; discriminate|].
    cbn [truthy negb]. now rewrite S.
  - intros S G. unfold handleUserText, handleAction, is_type, act, ret.
    cbn [action_type]. eval_tags. rewrite E, (toTopics_live st E).
    destruct (trim userText) as [|c raw];
      [rewrite urgent_not_empty in G; discriminate|].
    cbn [truthy negb]. now rewrite S, G.
Qed.

Lemma DOMAIN_ids d : In d DOMAIN -> truthy (dom_id d) = true.
Proof.
  assert (A : forallb (fun d => truthy (dom_id d)) DOMAIN = true) by reflexivity.
  rewrite forallb_forall in A. apply A.
Qed.

Lemma valid_id_truthy i : domainById (Some i) <> None -> truthy i = true.
Proof.
  intros V. destruct (domainById (Some i)) as [d|] eqn:E; [|contradiction].
  apply domainById_id in E as [[= ->] I]. now apply DOMAIN_ids.
Qed.

(** X20. In [choose_domain] (session not ended, text not blank, no trigger)
    the hard detector decides when it finds a domain, the soft classifier is
    asked only when it does not; a detected domain moves the state to
    [choose_focus] with that domain and offset 0 and is answered without
    cards by the focus menu; when neither detects a domain the state is
    unchanged and the topic menu is offered again. *)
Theorem domain_detection_step st userText :
  ended st = false -> step st = choose_domain -> trim userText <> [] ->
  containsAny (trim userText) SENSITIVE_TRIGGERS = false ->
  containsAny (trim userText) URGENT_TRIGGERS = false ->
  let detected := match detectDomainIdFromText (trim userText) with
                  | Some i => Some i
                  | None => softGuessDomainId (trim userText)
                  end in
  exists m,
    handleUserText st userText
    = Some {| state := match detected with
                       | Some i => set_offset 0 (set_domainId (Some i) (set_step choose_focus st))
                       | None => st
                       end;
              message := Some m |}
    /\ cards m = []
    /\ quickReplies m = match detected with
                        | Some _ => focusQuickReplies (lang st)
                        | None => topicQuickReplies (lang st)
                        end.
Proof.
  intros E C N S G detected. unfold handleUserText, ret. rewrite E, S, G, C.
  destruct (trim userText) as [|c raw] eqn:R; [contradiction|]. cbn [truthy negb].
  unfold or_else. subst detected.
  destruct (detectDomainIdFromText (c :: raw)) as [i|] eqn:H.
  - pose proof (detectDomainIdFromText_valid _ _ H) as V.
    cbn [otruthy]. rewrite (valid_id_truthy i V). cbn [otruthy].
    rewrite (valid_id_truthy i V).
    destruct (domainById (Some i)); [|contradiction].
    eexists. split; [reflexivity|]. split; reflexivity.
  - cbn [otruthy]. destruct (softGuessDomainId (c :: raw)) as [i|] eqn:H2.
    + pose proof (softGuessDomainId_valid _ _ H2) as V.
      cbn [otruthy]. rewrite (valid_id_truthy i V).
      destruct (domainById (Some i)); [|contradiction].
      eexists. split; [reflexivity|]. split; reflexivity.
    + cbn [otruthy]. eexists. split; [reflexivity|]. split; reflexivity.
Qed.

(** X21. A scheme card keeps the scheme's id and the focus it is made for,
    carries the first three official links at most, and is titled in the
    conversation's language when the scheme has a name in it and in the other
    language otherwise, so a scheme with a name in either language never gets
    an empty title. *)
Theorem formatScheme_card x l f :
  card_id (formatScheme x l f) = scheme_id x
  /\ card_focus (formatScheme x l f) = f
  /\ links (formatScheme x l f) = firstn 3 (official_links x)
  /\ (otruthy (if is_zh l then name_zh x else name_en x) = true ->
      title (formatScheme x l f) = if is_zh l then name_zh x else name_en x)
  /\ (otruthy (if is_zh l then name_zh x else name_en x) = false ->
      title (formatScheme x l f) = if is_zh l then name_en x else name_zh x)
  /\ (otruthy (name_en x) = true \/ otruthy (name_zh x) = true ->
      otruthy (title (formatScheme x l f)) = true).
Proof.
  cbn [formatScheme card_id card_focus links title]. unfold langPick, or_else.
  split; [reflexivity|]. split; [reflexivity|].
  split; [now rewrite slice_from_start by lia|].
  destruct (is_zh l), (otruthy (name_zh x)) eqn:Z, (otruthy (name_en x)) eqn:N;
    repeat split; intros; try discriminate; try reflexivity; try assumption;
    intuition discriminate.
Qed.

End Engine.

(* ================================================================== *)
(** ** The engine on concrete inputs

    The lemmas below run the engine on [sampleKb] with the tables
    [basicUnicode]; every input is written in Basic Latin. *)

#[local] Existing Instance basicUnicode.

Lemma handleAction_RESTART_witness :
  handleAction sampleKb endedState (Some (act "RESTART"))
  = Some {| state := initDialogState (u "en");
            message := Some (getInitialAssistantMessage (u "en")) |}.
Proof.
  apply (handleAction_RESTART sampleKb endedState (act "RESTART")). reflexivity.
Defined.

Lemma handleAction_unrecognized_witness :
  recognized (Some (act "DANCE")) = false
  /\ handleAction sampleKb midState (Some (act "DANCE"))
     = Some {| state := midState; message := None |}.
Proof.
  split; [reflexivity|].
  apply (handleAction_unrecognized sampleKb midState (Some (act "DANCE"))). reflexivity.
Defined.

Lemma actions_clear_ended_witness :
  ended endedState = true
  /\ exists r, handleAction sampleKb endedState (Some (act_SET_DOMAIN (u "housing"))) = Some r
               /\ ended (state r) = false.
Proof.
  split; [reflexivity|].
  apply (actions_clear_ended sampleKb endedState (act_SET_DOMAIN (u "housing"))).
  right; right; right. split; [reflexivity|]. vm_compute. discriminate.
Defined.

Lemma sensitive_takes_precedence_witness :
  let userText := u "  I want to end my life tonight " in
  containsAny (trim userText) URGENT_TRIGGERS = true
  /\ exists r, handleUserText sampleKb midState userText = Some r
       /\ state r = toTopics midState
       /\ message r = Some (sensitiveMessage sampleKb (u "en")).
Proof.
  split; [reflexivity|].
  destruct (sensitive_takes_precedence sampleKb midState
              (u "  I want to end my life tonight ") eq_refl)
    as (r & E & _ & _ & A & _).
  exists r. destruct (A eq_refl) as (S & M & _). repeat split; assumption.
Defined.

(** The claim of C1 as it is stated fails on an ended session: the input
    matches a sensitive trigger, and the message is the restart prompt, which
    carries no card. *)
Lemma sensitive_text_on_ended_session :
  let userText := u "I want to end my life tonight" in
  ended endedState = true
  /\ containsAny (trim userText) SENSITIVE_TRIGGERS = true
  /\ option_map message (handleUserText sampleKb endedState userText)
     <> Some (Some (sensitiveMessage sampleKb (lang endedState)))
  /\ cardsOf (handleUserText sampleKb endedState userText) = []
  /\ cards (sensitiveMessage sampleKb (lang endedState)) <> [].
Proof.
  cbv zeta. split; [reflexivity|]. split; [reflexivity|]. split; [|split].
  - intros H. vm_compute in H. discriminate.
  - reflexivity.
  - vm_compute. discriminate.
Defined.

Lemma offset_multiple_of_pageSize_witness :
  reachable sampleKb midState
  /\ pageSize midState = 3%Z /\ (0 <= offset midState)%Z
  /\ exists k, offset midState = (k * pageSize midState)%Z.
Proof.
  assert (R : reachable sampleKb midState).
  { apply (reach_action_to sampleKb
             (set_offset 0 midState) MORE_RESULTS); [|reflexivity].
    apply (reach_text_to sampleKb
             (set_lastQuery [] (set_offset 0 midState))
             (u "hospital bill")); [|reflexivity].
    apply (reach_action_to sampleKb
             (set_focus (u "overview")
                (set_step choose_focus (set_lastQuery [] (set_offset 0 midState))))
             (Some (act_SET_FOCUS "eligibility"))); [|reflexivity].
    apply (reach_action_to sampleKb (initDialogState (u "en"))
             (Some (act_SET_DOMAIN (u "healthcare")))); [|reflexivity].
    apply reach_init. }
  split; [exact R|]. exact (offset_multiple_of_pageSize sampleKb midState R).
Defined.

Lemma scoreScheme_formula_witness :
  tokenize (u "MediFund bill") = [u "medical"; u "bill"]
  /\ textOf (matchFields medifund)
     = u "medical safety net for a hospital bill medifund hospital bill unable to pay after subsidies ask the medical social worker"
  /\ textOf (nameFields medifund) = u "medical"
  /\ tokensIn (textOf (matchFields medifund)) [u "medical"; u "bill"] = 2%Z
  /\ tokensIn (textOf (nameFields medifund)) [u "medical"; u "bill"] = 1%Z
  /\ scoreScheme [u "medical"; u "bill"] medifund (Some (u "healthcare_support")) = 20%Z
  /\ scoreScheme [u "medical"; u "bill"] medifund (Some (u "healthcare_support"))
     = score_as_stated [u "medical"; u "bill"] medifund (Some (u "healthcare_support")).
Proof.
  assert (H : Some (u "healthcare_support") <> Some []) by (vm_compute; discriminate).
  split; [vm_compute; reflexivity|].
  split; [vm_compute; reflexivity|].
  split; [vm_compute; reflexivity|].
  split; [vm_compute; reflexivity|].
  split; [vm_compute; reflexivity|].
  split; [vm_compute; reflexivity|].
  exact (proj1 (scoreScheme_formula sampleKb [u "medical"; u "bill"] medifund
                  (Some (u "healthcare_support"))) H).
Defined.

Lemma retrieveAllSchemes_ranked_witness :
  map (fun x => scoreScheme (tokenize (u "hospital bill")) x
                (option_map cat (domainById (Some (u "healthcare")))))
      (schemes sampleKb)
  = [0; 12; 18; 18; 18; 0]%Z
  /\ map (fun e => (scheme_id (sch e), score e))
         (matched (retrieveAllSchemes sampleKb (u "hospital bill") (Some (u "healthcare"))))
     = [(u "medifund", 18); (u "medishield", 18); (u "careshield", 18); (u "chas", 12)]%Z
  /\ lowConfidence (retrieveAllSchemes sampleKb (u "hospital bill") (Some (u "healthcare")))
     = false
  /\ lowConfidence (retrieveAllSchemes sampleKb (u "zzz") None) = true
  /\ List.length (schemes crowdedKb) = 90%nat
  /\ map score (matched (retrieveAllSchemes crowdedKb (u "hospital bill")
                           (Some (u "healthcare"))))
     = (repeat 18 45 ++ repeat 12 5)%Z
  /\ exists ranked,
       matched (retrieveAllSchemes crowdedKb (u "hospital bill") (Some (u "healthcare")))
       = firstn 50 ranked
       /\ List.length ranked = 60%nat.
Proof.
  split; [vm_compute; reflexivity|].
  split; [vm_compute; reflexivity|].
  split; [vm_compute; reflexivity|].
  split; [vm_compute; reflexivity|].
  split; [vm_compute; reflexivity|].
  split; [vm_compute; reflexivity|].
  destruct (retrieveAllSchemes_ranked crowdedKb (u "hospital bill") (Some (u "healthcare")))
    as (ranked & M & _ & P & _).
  exists ranked. split; [exact M|].
  apply Permutation_length in P. rewrite length_map in P. rewrite P.
  vm_compute. reflexivity.
Defined.

Lemma more_results_pagination_witness :
  exists m,
    handleAction sampleKb midState MORE_RESULTS
    = Some {| state := set_offset (offset midState + pageSize midState) midState;
              message := Some m |}
    /\ m = noMoreResultsMessage (lang midState) (domainId midState)
    /\ firstn (Z.to_nat (offset midState + pageSize midState)) (rankedCards sampleKb midState)
       ++ List.concat (morePages sampleKb 2 midState)
       = firstn (Z.to_nat (offset midState + pageSize midState
                           + Z.of_nat 2 * pageSize midState))
                (rankedCards sampleKb midState)
    /\ List.length (rankedCards sampleKb midState) = 4%nat.
Proof.
  destruct (more_results_pagination sampleKb midState 2)
    as (m & E & _ & P & _ & L & _);
    [vm_compute; reflexivity|vm_compute; reflexivity|vm_compute; discriminate|].
  exists m. split; [exact E|]. split; [|split].
  - apply L; [vm_compute; reflexivity|vm_compute; discriminate].
  - apply P. vm_compute; reflexivity.
  - vm_compute; reflexivity.
Defined.

(** The claim of C2 as it is stated fails when the query matches nothing:
    the offset (3) has reached the number of matches (0), and the message is
    the no-match fallback with the entry-point cards, not
    [noMoreResultsMessage]. *)
Lemma more_results_without_matches :
  truthy (lastQuery noMatchState) = true
  /\ List.length (matched (retrieveAllSchemes sampleKb (lastQuery noMatchState)
                                              (domainId noMatchState))) = 0%nat
  /\ handleAction sampleKb noMatchState MORE_RESULTS
     = Some {| state := set_offset 3 noMatchState;
               message := Some (noMatchMessage sampleKb (u "en")) |}
  /\ noMatchMessage sampleKb (u "en") <> noMoreResultsMessage (u "en") None
  /\ cards (noMatchMessage sampleKb (u "en")) <> [].
Proof.
  split; [vm_compute; reflexivity|]. split; [vm_compute; reflexivity|].
  split; [vm_compute; reflexivity|]. split.
  - intros H. apply (f_equal cards) in H. vm_compute in H. discriminate.
  - vm_compute. discriminate.
Defined.

Lemma tokenize_idempotent_on_fixed_witness :
  tokenize (u "I need help with my hospital bill") = [u "hospital"; u "bill"]
  /\ tokenize (join (u " ") (tokenize (u "I need help with my hospital bill")))
     = tokenize (u "I need help with my hospital bill").
Proof.
  split; [vm_compute; reflexivity|].
  apply (tokenize_idempotent_on_fixed (u "I need help with my hospital bill")).
  vm_compute; reflexivity.
Defined.

(** The claim of C6 as it is stated fails: removing the stopword brings
    "no" and "money" together, and the synonym rule for "no money" fires on
    the joined tokens. *)
Lemma tokenize_not_idempotent :
  tokenize (u "no the money") = [u "no"; u "money"]
  /\ tokenize (join (u " ") (tokenize (u "no the money"))) = [u "financial"; u "aid"]
  /\ tokenize (join (u " ") (tokenize (u "no the money"))) <> tokenize (u "no the money").
Proof.
  split; [vm_compute; reflexivity|]. split; [vm_compute; reflexivity|].
  intros H. vm_compute in H. discriminate.
Defined.

(** The claim of C7 as it is stated fails: hard detection finds nothing in
    the text; counting the hint phrases as they stand gives "financial"
    (score 8 against 4 for "housing"), while the engine, which counts each
    hint in its normal form ("eviction", "homeless" and "shelter" all read
    "housing"), scores "housing" 13 and returns it. *)
Lemma soft_guess_counts_normalised_hints :
  let raw := u "xhousing cash bills" in
  detectDomainIdFromText raw = None
  /\ softGuess_as_stated raw = Some (u "financial")
  /\ softGuessDomainId raw = Some (u "housing")
  /\ map (domainScore_as_stated raw (tokenize raw)) (firstn 2 DOMAIN) = [8; 4]%Z
  /\ map (domainScore raw (tokenize raw)) (firstn 2 DOMAIN) = [8; 13]%Z.
Proof.
  cbv zeta. repeat split; vm_compute; reflexivity.
Defined.

(** *** Further properties on concrete inputs *)

Lemma midState_reachable : reachable sampleKb midState.
Proof.
  apply (reach_action_to sampleKb (set_offset 0 midState) MORE_RESULTS);
    [|vm_compute; reflexivity].
  apply (reach_text_to sampleKb (set_lastQuery [] (set_offset 0 midState))
           (u "hospital bill")); [|vm_compute; reflexivity].
  apply (reach_action_to sampleKb
           (set_focus (u "overview")
              (set_step choose_focus (set_lastQuery [] (set_offset 0 midState))))
           (Some (act_SET_FOCUS "eligibility"))); [|vm_compute; reflexivity].
  apply (reach_action_to sampleKb (initDialogState (u "en"))
           (Some (act_SET_DOMAIN (u "healthcare")))); [|vm_compute; reflexivity].
  apply reach_init.
Qed.

Lemma detected_domain_known_witness :
  softGuessDomainId (u "xhousing cash bills") = Some (u "housing")
  /\ exists d, domainById (Some (u "housing")) = Some d
               /\ dom_id d = u "housing" /\ In d DOMAIN.
Proof.
  assert (H : softGuessDomainId (u "xhousing cash bills") = Some (u "housing"))
    by (vm_compute; reflexivity).
  split; [exact H|].
  exact (detected_domain_known (u "xhousing cash bills") (u "housing") (or_intror H)).
Defined.

Lemma emitted_menu_is_usable_witness :
  quickReplies (getInitialAssistantMessage (u "en")) <> []
  /\ NoDup (map qr_id (quickReplies (getInitialAssistantMessage (u "en"))))
  /\ forall q, In q (quickReplies (getInitialAssistantMessage (u "en"))) ->
       recognized (Some (action q)) = true
       /\ forall st, handleAction sampleKb st (Some (action q)) <> None.
Proof.
  exact (emitted_menu_is_usable sampleKb (getInitialAssistantMessage (u "en"))
           (emitted_initial sampleKb (u "en"))).
Defined.

Lemma reachable_wellShaped_witness : wellShaped midState.
Proof. exact (reachable_wellShaped sampleKb midState midState_reachable). Defined.

Lemma urgent_text_resets_witness :
  handleUserText sampleKb midState (u "no place to stay tonight")
  = Some {| state := toTopics midState;
            message := Some (urgentMessage sampleKb (lang midState)) |}.
Proof.
  assert (E : ended midState = false) by reflexivity.
  assert (S : containsAny (trim (u "no place to stay tonight")) SENSITIVE_TRIGGERS = false)
    by (vm_compute; reflexivity).
  assert (G : containsAny (trim (u "no place to stay tonight")) URGENT_TRIGGERS = true)
    by (vm_compute; reflexivity).
  exact (proj1 (urgent_text_resets sampleKb midState (u "no place to stay tonight") E S G)).
Defined.

Lemma blank_text_prompts_witness :
  exists m,
    handleUserText sampleKb midState (u "   ")
    = Some {| state := midState; message := Some m |}
    /\ cards m = []
    /\ quickReplies m = match step midState with
                        | choose_domain => topicQuickReplies (lang midState)
                        | _ => domainPresets (domainId midState) (lang midState)
                        end.
Proof.
  assert (B : Forall (fun c => isWhiteSpace c = true) (u "   "))
    by (vm_compute; repeat constructor).
  exact (blank_text_prompts sampleKb midState (u "   ") eq_refl B).
Defined.

Lemma end_then_any_text_restarts_witness :
  exists r1 r2,
    handleAction sampleKb midState (Some (act "END")) = Some r1
    /\ state r1 = set_ended true midState
    /\ handleUserText sampleKb (state r1) (u "I want to end my life") = Some r2
    /\ state r2 = initDialogState (lang midState)
    /\ cardsOf (Some r2) = []
    /\ option_map quickReplies (message r2) = Some (topicQuickReplies (lang midState)).
Proof.
  assert (H : is_type (act "END") "END" = true) by (vm_compute; reflexivity).
  exact (end_then_any_text_restarts sampleKb midState (act "END")
           (u "I want to end my life") H).
Defined.

Lemma set_focus_shows_page_one_witness :
  exists m,
    handleAction sampleKb midState (Some (act_SET_FOCUS "steps"))
    = Some {| state := set_offset 0 (set_focus (u "steps") midState); message := Some m |}
    /\ map card_id (cards m) = [u "medifund"; u "medishield"; u "careshield"]
    /\ Forall (fun c => card_focus c = u "steps") (cards m).
Proof.
  assert (H : is_type (act_SET_FOCUS "steps") "SET_FOCUS" = true)
    by (vm_compute; reflexivity).
  assert (Q : truthy (lastQuery midState) = true) by (vm_compute; reflexivity).
  assert (P : (0 < pageSize midState)%Z) by (vm_compute; reflexivity).
  destruct (set_focus_shows_page_one sampleKb midState (act_SET_FOCUS "steps")
              H eq_refl Q P) as (m & E & C).
  assert (N : matched (retrieveAllSchemes sampleKb (lastQuery midState) (domainId midState))
              <> []) by (vm_compute; discriminate).
  destruct (C N) as (Cm & _ & F).
  exists m. split; [exact E|]. split; [|exact F].
  rewrite Cm. vm_compute. reflexivity.
Defined.

Lemma more_results_without_query_witness :
  exists m,
    handleAction sampleKb (initDialogState (u "en")) (Some (act "MORE_RESULTS"))
    = Some {| state := initDialogState (u "en"); message := Some m |}
    /\ cards m = []
    /\ quickReplies m = domainPresets (domainId (initDialogState (u "en")))
                                      (lang (initDialogState (u "en"))).
Proof.
  assert (H : is_type (act "MORE_RESULTS") "MORE_RESULTS" = true)
    by (vm_compute; reflexivity).
  exact (more_results_without_query sampleKb (initDialogState (u "en"))
           (act "MORE_RESULTS") H eq_refl).
Defined.

Lemma language_is_kept_witness :
  exists r, handleAction sampleKb endedState (Some (act "RESTART")) = Some r
            /\ lang (state r) = lang endedState.
Proof.
  destruct (handleAction sampleKb endedState (Some (act "RESTART"))) as [r|] eqn:E;
    [|vm_compute in E; discriminate].
  exists r. split; [reflexivity|].
  apply (language_is_kept sampleKb endedState r). right.
  exists (Some (act "RESTART")). exact E.
Defined.

Lemma domain_scheme_always_matches_witness :
  matched (retrieveAllSchemes sampleKb (u "zzz") (Some (u "healthcare"))) <> []
  /\ lowConfidence (retrieveAllSchemes sampleKb (u "zzz") (Some (u "healthcare"))) = false.
Proof.
  assert (D : domainById (Some (u "healthcare"))
              = Some (mkDomain "healthcare" "healthcare_support" "Healthcare" "医疗"))
    by (vm_compute; reflexivity).
  assert (I : In medifund (schemes sampleKb)) by (right; right; left; reflexivity).
  assert (C : category medifund
              = cat (mkDomain "healthcare" "healthcare_support" "Healthcare" "医疗"))
    by reflexivity.
  destruct (domain_scheme_always_matches sampleKb (u "zzz") (Some (u "healthcare"))
              _ medifund D I C) as (_ & _ & M & L).
  split; [exact M|exact L].
Defined.

Lemma empty_query_matches_nothing_witness :
  tokenize (u "Please, can you help me?") = []
  /\ matched (retrieveAllSchemes sampleKb (u "Please, can you help me?") None) = []
  /\ buildResultsMessage sampleKb (u "en") None (u "overview")
       (u "Please, can you help me?") 0 3
     = noMatchMessage sampleKb (u "en").
Proof.
  assert (T : tokenize (u "Please, can you help me?") = []) by (vm_compute; reflexivity).
  destruct (empty_query_matches_nothing sampleKb (u "Please, can you help me?") None
              T eq_refl) as (M & _ & _ & B).
  split; [exact T|]. split; [exact M|]. apply B.
Defined.

Lemma results_page_and_more_witness :
  (List.length (cards (buildResultsMessage sampleKb (u "en") (Some (u "healthcare"))
                         (u "overview") (u "hospital bill") 0 3)) <= 3)%nat
  /\ existsb (fun q => is_type (action q) "MORE_RESULTS")
       (quickReplies (buildResultsMessage sampleKb (u "en") (Some (u "healthcare"))
                        (u "overview") (u "hospital bill") 0 3))
     = true.
Proof.
  assert (O : (0 <= 0)%Z) by lia. assert (P : (0 < 3)%Z) by lia.
  destruct (results_page_and_more sampleKb (u "en") (Some (u "healthcare"))
              (u "overview") (u "hospital bill") 0 3 O P) as (L & M).
  split.
  - apply L. vm_compute. reflexivity.
  - rewrite M. vm_compute. reflexivity.
Defined.

Lemma tokenize_tokens_witness :
  u "hospital" <> []
  /\ Forall (fun c => isLetter c || isNumber c = true) (u "hospital")
  /\ STOPWORDS_has (u "hospital") = false.
Proof.
  apply (tokenize_tokens (u "I need help with my hospital bill") (u "hospital")).
  vm_compute. left. reflexivity.
Defined.

Lemma guided_flow_witness :
  exists r3,
    handleUserText sampleKb
      {| lang := u "en"; step := refine_and_show; domainId := Some (u "housing");
         focus := u "steps"; lastQuery := []; offset := 0; pageSize := 3;
         ended := false |}
      (u " rent ")
    = Some r3
    /\ state r3 = {| lang := u "en"; step := refine_and_show;
                     domainId := Some (u "housing"); focus := u "steps";
                     lastQuery := u "rent"; offset := 0; pageSize := 3;
                     ended := false |}
    /\ map card_id (cardsOf (Some r3)) = [u "rental"].
Proof.
  assert (D : domainById (Some (u "housing")) <> None) by (vm_compute; discriminate).
  assert (F : u "steps" <> []) by (vm_compute; discriminate).
  assert (N : trim (u " rent ") <> []) by (vm_compute; discriminate).
  assert (S : containsAny (trim (u " rent ")) SENSITIVE_TRIGGERS = false)
    by (vm_compute; reflexivity).
  assert (G : containsAny (trim (u " rent ")) URGENT_TRIGGERS = false)
    by (vm_compute; reflexivity).
  destruct (guided_flow sampleKb endedState (u "housing") (u "steps") (u " rent ")
              D F N S G)
    as (r1 & r2 & r3 & E1 & _ & E2 & _ & _ & E3 & St & M).
  assert (S1 : state r1 = set_ended false (set_offset 0 (set_lastQuery []
                 (set_domainId (Some (u "housing")) (set_step choose_focus endedState)))))
    by (vm_compute in E1; injection E1 as <-; reflexivity).
  rewrite S1 in E2.
  assert (S2 : state r2 = {| lang := u "en"; step := refine_and_show;
                             domainId := Some (u "housing"); focus := u "steps";
                             lastQuery := []; offset := 0; pageSize := 3;
                             ended := false |})
    by (vm_compute in E2; injection E2 as <-; reflexivity).
  rewrite S2 in E3.
  exists r3. split; [exact E3|]. split.
  - rewrite St. vm_compute. reflexivity.
  - destruct r3 as [s3 m3]. cbn [message state cardsOf] in *. rewrite M.
    vm_compute. reflexivity.
Defined.

Lemma trigger_text_equals_button_witness :
  handleUserText sampleKb midState (u "no place to stay tonight")
  = handleAction sampleKb midState (Some (act "URGENT")).
Proof.
  assert (S : containsAny (trim (u "no place to stay tonight")) SENSITIVE_TRIGGERS = false)
    by (vm_compute; reflexivity).
  assert (G : containsAny (trim (u "no place to stay tonight")) URGENT_TRIGGERS = true)
    by (vm_compute; reflexivity).
  exact (proj2 (trigger_text_equals_button sampleKb midState
                  (u "no place to stay tonight") eq_refl) S G).
Defined.

Lemma domain_detection_step_witness :
  detectDomainIdFromText (u "I can't afford my hospital bill") = Some (u "healthcare")
  /\ exists m,
       handleUserText sampleKb (initDialogState (u "en")) (u "I can't afford my hospital bill")
       = Some {| state := set_offset 0 (set_domainId (Some (u "healthcare"))
                            (set_step choose_focus (initDialogState (u "en"))));
                 message := Some m |}
       /\ cards m = [] /\ quickReplies m = focusQuickReplies (u "en").
Proof.
  assert (H : detectDomainIdFromText (trim (u "I can't afford my hospital bill"))
              = Some (u "healthcare")) by (vm_compute; reflexivity).
  split; [vm_compute; reflexivity|].
  assert (N : trim (u "I can't afford my hospital bill") <> [])
    by (vm_compute; discriminate).
  assert (S : containsAny (trim (u "I can't afford my hospital bill")) SENSITIVE_TRIGGERS
              = false) by (vm_compute; reflexivity).
  assert (G : containsAny (trim (u "I can't afford my hospital bill")) URGENT_TRIGGERS
              = false) by (vm_compute; reflexivity).
  pose proof (domain_detection_step sampleKb (initDialogState (u "en"))
                (u "I can't afford my hospital bill") eq_refl eq_refl N S G) as T.
  cbv zeta in T. rewrite H in T. exact T.
Defined.
